(** * Verification of the AI-generated store client: API layer and page state

    Shallow embedding of [src/api/api.ts] (the typed fetch wrapper and its
    [handleResponse]), [src/context/UserContext.tsx] (the persisted user id),
    and the handlers and render functions of the Home, ProductDetail,
    CartPage and Register pages. *)

From Stdlib Require Import ZArith Lia Ascii String.
From stdpp Require Import base gmap strings list pretty.

Open Scope Z_scope.
Open Scope string_scope.
#[local] Set Warnings "-register-all".

(* ------------------------------------------------------------------ *)
(** ** JavaScript values carried by JSON bodies *)
(* ------------------------------------------------------------------ *)

Module Js.

(** A value produced by [JSON.parse]. Numbers are the integers of the
    wire format (floating point is not modelled). Objects keep their
    members in source order; [JSON.parse] keeps the last duplicate. *)
Inductive json : Type :=
  | JNull
  | JBool (b : bool)
  | JNum (n : Z)
  | JStr (s : string)
  | JArr (xs : list json)
  | JObj (members : list (string * json)).

(** Truthiness of a value as [if (v)] tests it; [None] is [undefined]. *)
Definition truthy (v : option json) : bool :=
  match v with
  | None | Some JNull => false
  | Some (JBool b) => b
  | Some (JNum n) => negb (Z.eqb n 0)
  | Some (JStr s) => negb (String.eqb s "")
  | Some (JArr _) | Some (JObj _) => true
  end.

(** [Array.prototype.join(",")] over already converted elements. *)
Fixpoint join_comma (xs : list string) : string :=
  match xs with
  | [] => ""
  | [x] => x
  | x :: xs' => x ++ "," ++ join_comma xs'
  end.

(** [String(v)], as the [Error] constructor applies it to its argument.
    Arrays convert through [join], objects to ["[object Object]"]. *)
Fixpoint to_string (v : json) : string :=
  match v with
  | JNull => "null"
  | JBool true => "true"
  | JBool false => "false"
  | JNum n => pretty n
  | JStr s => s
  | JArr xs =>
      join_comma
        ((fix elems (l : list json) : list string :=
            match l with
            | [] => []
            (* join writes null and undefined elements as the empty string *)
            | JNull :: l' => "" :: elems l'
            | x :: l' => to_string x :: elems l'
            end) xs)
  | JObj _ => "[object Object]"
  end.

(** Member access [v?.message]: [undefined] unless [v] is an object
    with that member (the last duplicate wins, as in [JSON.parse]). *)
Definition member (k : string) (v : option json) : option json :=
  match v with
  | Some (JObj ms) =>
      match find (fun kv => String.eqb (fst kv) k) (rev ms) with
      | Some (_, x) => Some x
      | None => None
      end
  | _ => None
  end.

End Js.

Import Js.

(* ------------------------------------------------------------------ *)
(** ** Responses and [handleResponse] *)
(* ------------------------------------------------------------------ *)

Module Api.

(** What [res.json()] does on the body: it resolves with the parsed
    value or rejects with the [SyntaxError] of [JSON.parse]. *)
Inductive json_result : Type :=
  | Parsed (v : json)
  | ParseError (msg : string).

Record Response : Type := {
  status : Z;
  statusText : string;
  body : json_result
}.

(** [res.ok]: the status is in the 2xx range. *)
Definition ok (res : Response) : bool :=
  Z.leb 200 (status res) && Z.leb (status res) 299.

(** The settled promise returned by [handleResponse]: [Resolved None] is
    [undefined]; [Rejected m] is a rejection with an error of message [m]. *)
Inductive outcome : Type :=
  | Resolved (v : option json)
  | Rejected (msg : string).

(** [handleResponse res]: the settled promise, together with whether
    [res.json()] was called. *)
Definition handleResponse (res : Response) : outcome * bool :=
  if ok res then
    if Z.eqb (status res) 204%Z then (Resolved None, false)
    else
      match body res with
      | Parsed v => (Resolved (Some v), true)
      | ParseError m => (Rejected m, true)
      end
  else
    (* let err = res.statusText; try { body = await res.json();
       if (body?.message) err = body.message } catch {} *)
    let err : json :=
      match body res with
      | Parsed v =>
          match member "message" (Some v) with
          | Some m => if truthy (Some m) then m else JStr (statusText res)
          | None => JStr (statusText res)
          end
      | ParseError _ => JStr (statusText res)
      end in
    (* throw new Error(err || `HTTP ${res.status}`) *)
    let arg := if truthy (Some err) then err
               else JStr ("HTTP " ++ pretty (status res)) in
    (Rejected (to_string arg), true).

(** The [init] argument of each [fetch] call: method (default ["GET"]),
    the [headers] object as its list of entries, and the body passed
    through [JSON.stringify] (kept as the value being serialized). *)
Record Request : Type := {
  url : string;
  method : string;
  headers : list (string * string);
  reqBody : option json
}.

Section Endpoints.

(** [import.meta.env.VITE_API_BASE_URL ?? ""]. *)
Variable BASE : string.

Definition json_headers : list (string * string) :=
  [("Content-Type", "application/json"); ("Accept", "application/json")].

Definition accept_only : list (string * string) :=
  [("Accept", "application/json")].

Definition createUser (dto : json) : Request :=
  {| url := BASE ++ "/api/users"; method := "POST";
     headers := json_headers; reqBody := Some dto |}.

Definition getUsers : Request :=
  {| url := BASE ++ "/api/users"; method := "GET";
     headers := accept_only; reqBody := None |}.

Definition getUserById (id : Z) : Request :=
  {| url := BASE ++ "/api/users/" ++ pretty id; method := "GET";
     headers := accept_only; reqBody := None |}.

Definition updateUser (id : Z) (dto : json) : Request :=
  {| url := BASE ++ "/api/users/" ++ pretty id; method := "PUT";
     headers := json_headers; reqBody := Some dto |}.

(** [fetch(url, { method: "DELETE" })]: no [headers] member. *)
Definition deleteUser (id : Z) : Request :=
  {| url := BASE ++ "/api/users/" ++ pretty id; method := "DELETE";
     headers := []; reqBody := None |}.

Definition getProducts : Request :=
  {| url := BASE ++ "/api/products"; method := "GET";
     headers := accept_only; reqBody := None |}.

Definition getProductById (id : Z) : Request :=
  {| url := BASE ++ "/api/products/" ++ pretty id; method := "GET";
     headers := accept_only; reqBody := None |}.

Definition getCart (userId : Z) : Request :=
  {| url := BASE ++ "/api/cart?userId=" ++ pretty userId; method := "GET";
     headers := accept_only; reqBody := None |}.

Definition addToCart (userId : Z) (request : json) : Request :=
  {| url := BASE ++ "/api/cart/add?userId=" ++ pretty userId;
     method := "POST"; headers := json_headers; reqBody := Some request |}.

(** [fetch(url, { method: "DELETE" })]: no [headers] member. *)
Definition removeFromCart (userId productId : Z) : Request :=
  {| url := BASE ++ "/api/cart/remove/" ++ pretty productId
            ++ "?userId=" ++ pretty userId;
     method := "DELETE"; headers := []; reqBody := None |}.

Definition checkout (userId : Z) : Request :=
  {| url := BASE ++ "/api/cart/checkout?userId=" ++ pretty userId;
     method := "POST"; headers := accept_only; reqBody := None |}.

End Endpoints.

(** Whether a request carries header [k] with value [v]. *)
Definition has_header (k v : string) (r : Request) : bool :=
  existsb (fun kv => String.eqb (fst kv) k && String.eqb (snd kv) v)
          (headers r).

End Api.

(* ------------------------------------------------------------------ *)
(** ** The session context ([UserContext.tsx]) *)
(* ------------------------------------------------------------------ *)

Module Session.

Definition USER_ID_STORAGE_KEY : string := "ai-store-user-id".

(** The provider's state: the React state [currentUserId] and the
    browser's [localStorage] as a map from keys to strings. *)
Record t : Type := {
  currentUserId : option Z;
  storage : gmap string string
}.

(** [setCurrentUserId(id)]: update the state, then [setItem] the
    [id.toString()] or [removeItem] the key. *)
Definition setCurrentUserId (id : option Z) (st : t) : t :=
  {| currentUserId := id;
     storage :=
       match id with
       | Some n => <[USER_ID_STORAGE_KEY := pretty n]> (storage st)
       | None => delete USER_ID_STORAGE_KEY (storage st)
       end |}.

(** [clearUser()] is [setCurrentUserId(null)]. *)
Definition clearUser (st : t) : t := setCurrentUserId None st.

(** The two operations the context exposes. *)
Inductive op : Type :=
  | SetId (id : option Z)
  | Clear.

Definition run_op (o : op) (st : t) : t :=
  match o with
  | SetId id => setCurrentUserId id st
  | Clear => clearUser st
  end.

Definition run_ops (os : list op) (st : t) : t :=
  fold_left (fun s o => run_op o s) os st.

End Session.

(* ------------------------------------------------------------------ *)
(** ** Values shared by the pages *)
(* ------------------------------------------------------------------ *)

Module Dto.

Record ProductDto : Type := {
  product_id : Z;
  name : string;
  description : option string;
  price : Z;
  stockQuantity : Z
}.

Record CartItemDto : Type := {
  item_id : Z;
  productId : Z;
  productName : string;
  item_price : Z;
  quantity : Z;
  subtotal : Z
}.

Record UserDto : Type := {
  user_id : Z;
  username : string;
  email : string
}.

Record CheckoutResultDto : Type := {
  success : bool;
  message : string;
  totalAmount : option Z;
  purchasedItems : option (list CartItemDto)
}.

End Dto.

Import Dto.

(* ------------------------------------------------------------------ *)
(** ** String primitives used by the pages *)
(* ------------------------------------------------------------------ *)

Module Str.

(** A JavaScript string: its sequence of UTF-16 code units. The values
    typed into inputs are such strings. *)
Definition ustring : Type := list Z.

(** The code units of a Rocq string literal, each byte read as the code
    point of the same number (ASCII and Latin-1). *)
Definition of_string (s : string) : ustring :=
  map (fun c => Z.of_nat (nat_of_ascii c)) (list_ascii_of_string s).

(** The code units [String.prototype.trim], [parseInt] and the regex
    class [\s] treat as white space: WhiteSpace (tab, vertical tab, form
    feed, U+FEFF and the Space_Separator characters U+0020, U+00A0,
    U+1680, U+2000-U+200A, U+202F, U+205F, U+3000) and LineTerminator
    (line feed, carriage return, U+2028, U+2029). *)
Definition is_ws (c : Z) : bool :=
  (Z.leb 9 c && Z.leb c 13) || Z.eqb c 32 || Z.eqb c 160 || Z.eqb c 5760 ||
  (Z.leb 8192 c && Z.leb c 8202) || Z.eqb c 8232 || Z.eqb c 8233 ||
  Z.eqb c 8239 || Z.eqb c 8287 || Z.eqb c 12288 || Z.eqb c 65279.

(** The value of an ASCII decimal digit ["0"]-["9"] (code units 48-57). *)
Definition digit_value (c : Z) : option Z :=
  if Z.leb 48 c && Z.leb c 57 then Some (c - 48) else None.

Fixpoint skip_ws (s : ustring) : ustring :=
  match s with
  | c :: s' => if is_ws c then skip_ws s' else s
  | [] => []
  end.

(** The longest prefix of decimal digits, as digit values. *)
Fixpoint leading_digits (s : ustring) : list Z :=
  match s with
  | c :: s' =>
      match digit_value c with
      | Some d => d :: leading_digits s'
      | None => []
      end
  | [] => []
  end.

Definition digits_to_Z (ds : list Z) : Z :=
  fold_left (fun acc d => acc * 10 + d) ds 0.

Definition parse_digits (s : ustring) : option Z :=
  match leading_digits s with
  | [] => None
  | ds => Some (digits_to_Z ds)
  end.

(** [parseInt(s, 10)]: leading white space, an optional sign (["-"] is
    45, ["+"] is 43), then the longest run of digits; [None] is [NaN] (no
    digit). *)
Definition parseInt (s : ustring) : option Z :=
  match skip_ws s with
  | c :: r =>
      if Z.eqb c 45 then option_map Z.opp (parse_digits r)
      else if Z.eqb c 43 then parse_digits r
      else parse_digits (c :: r)
  | [] => None
  end.

Fixpoint drop_trailing_ws (s : ustring) : ustring :=
  match s with
  | [] => []
  | c :: s' =>
      match drop_trailing_ws s' with
      | [] => if is_ws c then [] else [c]
      | r => c :: r
      end
  end.

(** [s.trim()]. *)
Definition trim (s : ustring) : ustring := drop_trailing_ws (skip_ws s).

(** [!s]: the string is empty. *)
Definition is_empty (s : ustring) : bool :=
  match s with
  | [] => true
  | _ :: _ => false
  end.

Fixpoint no_ws (s : ustring) : bool :=
  match s with
  | c :: s' => negb (is_ws c) && no_ws s'
  | [] => true
  end.

Fixpoint count_char (a : Z) (s : ustring) : nat :=
  match s with
  | c :: s' => (if Z.eqb c a then 1 else 0) + count_char a s'
  | [] => 0
  end%nat.

(** The part of [s] before the first [a], and the part after it. *)
Fixpoint split_at (a : Z) (s : ustring) : ustring * ustring :=
  match s with
  | c :: s' =>
      if Z.eqb c a then ([], s')
      else let (l, r) := split_at a s' in (c :: l, r)
  | [] => ([], [])
  end.

(** A ["."] (46) with at least one code unit after it. *)
Fixpoint has_inner_dot (s : ustring) : bool :=
  match s with
  | c :: s' => (Z.eqb c 46 && negb (is_empty s')) || has_inner_dot s'
  | [] => false
  end.

(** [/^[^\s@]+@[^\s@]+\.[^\s@]+$/.test(s)]: no white space, exactly one
    ["@"] (64) with a non-empty part before it, and after it a ["."]
    that is neither the first nor the last code unit. *)
Definition email_valid (s : ustring) : bool :=
  no_ws s && (count_char 64 s =? 1)%nat &&
  let (local, domain) := split_at 64 s in
  negb (is_empty local) &&
  match domain with
  | _ :: rest => has_inner_dot rest
  | [] => false
  end.

End Str.

Module Ui.

(** A value caught by a [catch (err)] clause: an [Error] instance (any
    error the API layer throws, [SyntaxError] and [TypeError] included)
    or any other thrown value ([null], a string, a plain object, ...). *)
Inductive rejection : Type :=
  | ErrorInstance (msg : string)
  | NonError (v : json).

(** [err instanceof Error ? err.message : fallback]. *)
Definition err_message (err : rejection) (fallback : string) : string :=
  match err with
  | ErrorInstance m => m
  | NonError _ => fallback
  end.

(** How an awaited API call settles. *)
Inductive settled (A : Type) : Type :=
  | Fulfilled (v : A)
  | Failed (err : rejection).
Arguments Fulfilled {A} v.
Arguments Failed {A} err.

(** The API calls a page issues. *)
Inductive call : Type :=
  | CallGetProducts
  | CallGetProduct (id : Z)
  | CallGetCart (userId : Z)
  | CallAddToCart (userId productId quantity : Z)
  | CallRemoveFromCart (userId productId : Z)
  | CallCheckout (userId : Z)
  | CallCreateUser (username email : Str.ustring).

(** What a [setTimeout] callback does when it fires. *)
Inductive deferred : Type :=
  | ClearMessage
  | NavigateTo (route : string).

(** The effects of a handler besides its state updates, in order. *)
Inductive effect : Type :=
  | Issue (c : call)
  | Navigate (route : string)
  | SetTimeout (action : deferred) (ms : Z)
  | SetUser (id : Z).

(** Truthiness of the context's [currentUserId] ([null] and [0] are falsy). *)
Definition uid_truthy (uid : option Z) : bool :=
  match uid with
  | Some n => negb (Z.eqb n 0)
  | None => false
  end.

(** Truthiness of a [string | null] state. *)
Definition str_truthy (s : option string) : bool :=
  match s with
  | Some x => negb (String.eqb x "")
  | None => false
  end.

End Ui.

Import Ui.

(* ------------------------------------------------------------------ *)
(** ** Home page ([pages/Home.tsx]) *)
(* ------------------------------------------------------------------ *)

Module Home.

Record t : Type := {
  products : list ProductDto;
  loading : bool;
  error : option string;
  message : option string
}.

Definition init : t :=
  {| products := []; loading := true; error := None; message := None |}.

Definition set_products v (st : t) : t :=
  {| products := v; loading := loading st; error := error st; message := message st |}.
Definition set_loading v (st : t) : t :=
  {| products := products st; loading := v; error := error st; message := message st |}.
Definition set_error v (st : t) : t :=
  {| products := products st; loading := loading st; error := v; message := message st |}.
Definition set_message v (st : t) : t :=
  {| products := products st; loading := loading st; error := error st; message := v |}.

(** [loadProducts()], with [res] how [getProducts()] settles. *)
Definition loadProducts (st : t) (res : settled (list ProductDto))
    : t * list effect :=
  let st1 := set_error None (set_loading true st) in
  let st2 :=
    match res with
    | Fulfilled data => set_products data st1
    | Failed err => set_error (Some (err_message err "Failed to load products")) st1
    end in
  (set_loading false st2, [Issue CallGetProducts]).

(** [handleAddToCart(productId, quantity)], with [res] how [addToCart]
    settles when it is called. *)
Definition handleAddToCart (uid : option Z) (productId quantity : Z) (st : t)
    (res : settled unit) : t * list effect :=
  match uid with
  | Some n =>
      if Z.eqb n 0 then
        (set_message (Some "Please register or login to add items to cart") st, [])
      else
        let st1 := set_message None st in
        match res with
        | Fulfilled _ =>
            (set_message (Some "Item added to cart!") st1,
             [Issue (CallAddToCart n productId quantity); SetTimeout ClearMessage 3000])
        | Failed err =>
            (set_error (Some (err_message err "Failed to add to cart")) st1,
             [Issue (CallAddToCart n productId quantity)])
        end
  | None => (set_message (Some "Please register or login to add items to cart") st, [])
  end.

Inductive view : Type :=
  | ViewLoading
  (** the error text and the Retry button *)
  | ViewError (msg : string)
  (** the message banner (when truthy) and the product grid *)
  | ViewProducts (banner : option string) (items : list ProductDto).

Definition render (st : t) : view :=
  if loading st then ViewLoading
  else if str_truthy (error st) then ViewError (default "" (error st))
  else ViewProducts (if str_truthy (message st) then message st else None)
                    (products st).

End Home.

(* ------------------------------------------------------------------ *)
(** ** Product detail page ([pages/ProductDetail.tsx]) *)
(* ------------------------------------------------------------------ *)

Module ProductDetail.

Record t : Type := {
  product : option ProductDto;
  loading : bool;
  error : option string;
  quantity : Z;
  message : option string
}.

Definition set_error v (st : t) : t :=
  {| product := product st; loading := loading st; error := v;
     quantity := quantity st; message := message st |}.
Definition set_quantity v (st : t) : t :=
  {| product := product st; loading := loading st; error := error st;
     quantity := v; message := message st |}.
Definition set_message v (st : t) : t :=
  {| product := product st; loading := loading st; error := error st;
     quantity := quantity st; message := v |}.

(** The quantity input's [onChange]:
    [const val = parseInt(e.target.value, 10); setQuantity(isNaN(val) ? 1 : val)]. *)
Definition onQuantityChange (value : Str.ustring) (st : t) : t :=
  set_quantity (match Str.parseInt value with None => 1 | Some v => v end) st.

(** [handleAddToCart()], with [res] how [addToCart] settles when called. *)
Definition handleAddToCart (uid : option Z) (st : t) (res : settled unit)
    : t * list effect :=
  if negb (uid_truthy uid) then
    (set_message (Some "Please register or login to add items to cart") st,
     [SetTimeout (NavigateTo "/register") 2000])
  else
    match product st with
    | None => (st, [])
    | Some p =>
        if Z.leb (quantity st) 0 then
          (set_message (Some "Quantity must be greater than 0") st, [])
        else if Z.ltb (stockQuantity p) (quantity st) then
          (set_message (Some ("Only " ++ pretty (stockQuantity p)
                              ++ " items available in stock")) st, [])
        else
          let st1 := set_message None st in
          let c := Issue (CallAddToCart (default 0 uid) (product_id p) (quantity st)) in
          match res with
          | Fulfilled _ =>
              (set_message (Some "Item added to cart!") st1,
               [c; SetTimeout ClearMessage 3000])
          | Failed err =>
              (set_error (Some (err_message err "Failed to add to cart")) st1, [c])
          end
    end.

Inductive controls : Type :=
  (** the quantity input (value, disabled) and the Add to Cart button *)
  | AddControls (value : Z) (disabled : bool)
  | LoginPrompt.

Inductive view : Type :=
  | ViewLoading
  (** the error text (or ["Product not found"]) and the back button *)
  | ViewError (msg : string)
  | ViewProduct (p : ProductDto) (banner : option string) (ctl : controls).

Definition render (uid : option Z) (st : t) : view :=
  if loading st then ViewLoading
  else match product st with
       | Some p =>
           if str_truthy (error st) then ViewError (default "" (error st))
           else
             ViewProduct p
               (if str_truthy (message st) then message st else None)
               (if uid_truthy uid
                then AddControls (quantity st) (Z.leb (stockQuantity p) 0)
                else LoginPrompt)
       | None =>
           ViewError (if str_truthy (error st) then default "" (error st)
                      else "Product not found")
       end.

End ProductDetail.

(* ------------------------------------------------------------------ *)
(** ** Cart page ([pages/CartPage.tsx]) *)
(* ------------------------------------------------------------------ *)

Module CartPage.

Record t : Type := {
  cartItems : list CartItemDto;
  loading : bool;
  error : option string;
  checkoutResult : option CheckoutResultDto
}.

Definition init : t :=
  {| cartItems := []; loading := true; error := None; checkoutResult := None |}.

Definition set_cartItems v (st : t) : t :=
  {| cartItems := v; loading := loading st; error := error st;
     checkoutResult := checkoutResult st |}.
Definition set_loading v (st : t) : t :=
  {| cartItems := cartItems st; loading := v; error := error st;
     checkoutResult := checkoutResult st |}.
Definition set_error v (st : t) : t :=
  {| cartItems := cartItems st; loading := loading st; error := v;
     checkoutResult := checkoutResult st |}.
Definition set_checkoutResult v (st : t) : t :=
  {| cartItems := cartItems st; loading := loading st; error := error st;
     checkoutResult := v |}.

(** [loadCart()], with [res] how [getCart] settles when called. *)
Definition loadCart (uid : option Z) (st : t) (res : settled (list CartItemDto))
    : t * list effect :=
  match uid with
  | Some n =>
      if Z.eqb n 0 then (st, [])
      else
        let st1 := set_error None (set_loading true st) in
        let st2 :=
          match res with
          | Fulfilled data => set_cartItems data st1
          | Failed err => set_error (Some (err_message err "Failed to load cart")) st1
          end in
        (set_loading false st2, [Issue (CallGetCart n)])
  | None => (st, [])
  end.

(** The mount effect: [if (!currentUserId) { navigate("/register"); return; }
    loadCart();]. *)
Definition onEnter (uid : option Z) (st : t) (res : settled (list CartItemDto))
    : t * list effect :=
  if negb (uid_truthy uid) then (st, [Navigate "/register"])
  else loadCart uid st res.

(** [handleRemove(productId)], with [res] how [removeFromCart] settles and
    [reload] how the [getCart] of the following [loadCart()] settles. *)
Definition handleRemove (uid : option Z) (productId : Z) (st : t)
    (res : settled unit) (reload : settled (list CartItemDto)) : t * list effect :=
  match uid with
  | Some n =>
      if Z.eqb n 0 then (st, [])
      else
        let st1 := set_error None st in
        let c := Issue (CallRemoveFromCart n productId) in
        match res with
        | Fulfilled _ =>
            let (st2, effs) := loadCart uid st1 reload in (st2, c :: effs)
        | Failed err =>
            (set_error (Some (err_message err "Failed to remove item")) st1, [c])
        end
  | None => (st, [])
  end.

(** [handleCheckout()], with [res] how [checkout] settles when called. *)
Definition handleCheckout (uid : option Z) (st : t) (res : settled CheckoutResultDto)
    : t * list effect :=
  match uid with
  | Some n =>
      if Z.eqb n 0 then (st, [])
      else
        match cartItems st with
        | [] => (set_error (Some "Your cart is empty") st, [])
        | _ :: _ =>
            let st1 := set_error None st in
            let c := Issue (CallCheckout n) in
            match res with
            | Fulfilled result =>
                let st2 := set_checkoutResult (Some result) st1 in
                ((if success result then set_cartItems [] st2 else st2), [c])
            | Failed err =>
                (set_error (Some (err_message err "Checkout failed")) st1, [c])
            end
        end
  | None => (st, [])
  end.

Inductive view : Type :=
  | ViewNothing
  | ViewLoading
  (** the result card: success flag, title, message, the total line (shown
      only on success) and the purchased-items list (shown when non-empty) *)
  | ViewResult (ok : bool) (title : string) (msg : string)
               (total : option Z) (purchased : list CartItemDto)
  (** the cart: error banner (when truthy) and the empty-cart notice *)
  | ViewEmpty (banner : option string)
  (** the cart: error banner (when truthy), the item rows, checkout button *)
  | ViewItems (banner : option string) (items : list CartItemDto).

Definition render (uid : option Z) (st : t) : view :=
  if negb (uid_truthy uid) then ViewNothing
  else if loading st then ViewLoading
  else match checkoutResult st with
       | Some r =>
           ViewResult (success r)
             (if success r then "✓ Checkout Successful!" else "Checkout Failed")
             (message r)
             (if success r then totalAmount r else None)
             (match purchasedItems r with Some l => l | None => [] end)
       | None =>
           let banner := if str_truthy (error st) then error st else None in
           match cartItems st with
           | [] => ViewEmpty banner
           | items => ViewItems banner items
           end
       end.

End CartPage.

(* ------------------------------------------------------------------ *)
(** ** Registration page ([pages/Register.tsx]) *)
(* ------------------------------------------------------------------ *)

Module Register.

Record t : Type := {
  username : Str.ustring;
  email : Str.ustring;
  error : option string;
  loading : bool
}.

Definition set_error v (st : t) : t :=
  {| username := username st; email := email st; error := v; loading := loading st |}.
Definition set_loading v (st : t) : t :=
  {| username := username st; email := email st; error := error st; loading := v |}.

(** [handleSubmit(e)], with [res] how [createUser] settles when called.
    On success the context's [setCurrentUserId(user.id)] and
    [navigate("/")] run, recorded as effects. *)
Definition handleSubmit (st : t) (res : settled UserDto) : t * list effect :=
  let st0 := set_error None st in
  if Str.is_empty (Str.trim (username st)) then
    (set_error (Some "Username is required") st0, [])
  else if Str.is_empty (Str.trim (email st)) then
    (set_error (Some "Email is required") st0, [])
  else if negb (Str.email_valid (email st)) then
    (set_error (Some "Please enter a valid email address") st0, [])
  else
    let st1 := set_loading true st0 in
    let c := Issue (CallCreateUser (Str.trim (username st)) (Str.trim (email st))) in
    match res with
    | Fulfilled user =>
        (set_loading false st1, [c; SetUser (user_id user); Navigate "/"])
    | Failed err =>
        (set_loading false
           (set_error (Some (err_message err "Failed to create user")) st1), [c])
    end.

End Register.

(* ------------------------------------------------------------------ *)
(** ** Observations and concrete inputs used by the properties *)
(* ------------------------------------------------------------------ *)

Module Obs.

Import Api.

(** The [message] member of the error body, when the body parses. *)
Definition error_field (res : Response) : option json :=
  match body res with
  | Parsed v => member "message" (Some v)
  | ParseError _ => None
  end.

(** Whether a handler issued an add-to-cart request. *)
Definition issues_add_to_cart (effs : list effect) : bool :=
  existsb (fun e => match e with Issue (CallAddToCart _ _ _) => true | _ => false end)
          effs.

(** Whether a handler issued a cart fetch. *)
Definition issues_get_cart (effs : list effect) : bool :=
  existsb (fun e => match e with Issue (CallGetCart _) => true | _ => false end)
          effs.

(** A 404 whose JSON error body is [{"message": []}], with an empty
    status text: [[]] is truthy, and [String([])] is the empty string. *)
Definition res_empty_array_message : Response :=
  {| status := 404; statusText := "";
     body := Parsed (JObj [("message", JArr [])]) |}.

(** A 400 whose JSON error body has a string [message]. *)
Definition res_bad_request : Response :=
  {| status := 400; statusText := "Bad Request";
     body := Parsed (JObj [("message", JStr "Quantity invalid")]) |}.

(** A string made of decimal digits only. *)
Fixpoint digits_only (s : Str.ustring) : bool :=
  match s with
  | c :: s' => (if Str.digit_value c then true else false) && digits_only s'
  | [] => true
  end.

(** The inputs for which [handleSubmit] passes its client-side checks. *)
Definition register_input_valid (st : Register.t) : bool :=
  negb (Str.is_empty (Str.trim (Register.username st))) &&
  negb (Str.is_empty (Str.trim (Register.email st))) &&
  Str.email_valid (Register.email st).

Definition laptop : ProductDto :=
  {| product_id := 1; name := "Laptop"; description := None;
     price := 999; stockQuantity := 5 |}.

Definition home_loaded : Home.t :=
  {| Home.products := [laptop]; Home.loading := false;
     Home.error := None; Home.message := None |}.

Definition detail_loaded (q : Z) : ProductDetail.t :=
  {| ProductDetail.product := Some laptop; ProductDetail.loading := false;
     ProductDetail.error := None; ProductDetail.quantity := q;
     ProductDetail.message := None |}.

Definition laptop_line : CartItemDto :=
  {| item_id := 10; productId := 1; productName := "Laptop";
     item_price := 999; quantity := 1; subtotal := 999 |}.

Definition cart_loaded : CartPage.t :=
  {| CartPage.cartItems := [laptop_line]; CartPage.loading := false;
     CartPage.error := None; CartPage.checkoutResult := None |}.

Definition out_of_stock_result : CheckoutResultDto :=
  {| success := false; message := "Some items out of stock";
     totalAmount := None; purchasedItems := None |}.

Definition register_session : Session.t :=
  {| Session.currentUserId := None; Session.storage := empty |}.

Definition register_filled : Register.t :=
  {| Register.username := Str.of_string "alice";
     Register.email := Str.of_string "alice@example.com";
     Register.error := None; Register.loading := false |}.

End Obs.

(* ------------------------------------------------------------------ *)
(** ** Restoring the session, the header and the product card *)
(* ------------------------------------------------------------------ *)

Module SessionMount.

Import Session.

(** The provider's mount effect on [localStorage]: [const stored =
    getItem(key); if (stored) { const id = parseInt(stored, 10);
    if (!isNaN(id)) setCurrentUserIdState(id); }], from the initial
    [null]. A stored value is read as the code units of its characters. *)
Definition restore (storage : gmap string string) : option Z :=
  match storage !! USER_ID_STORAGE_KEY with
  | Some stored =>
      if String.eqb stored "" then None
      else match Str.parseInt (Str.of_string stored) with
           | Some id => Some id
           | None => None
           end
  | None => None
  end.

(** A fresh provider mounted over the browser's storage. *)
Definition mount (storage : gmap string string) : Session.t :=
  {| currentUserId := restore storage; storage := storage |}.

End SessionMount.

(** [components/Header.tsx]. *)
Module Header.

Inductive nav_item : Type :=
  | NavLink (route label : string)
  | UserInfo (id : Z)
  | LogoutButton.

(** The navigation bar for the context's [currentUserId]. *)
Definition nav (uid : option Z) : list nav_item :=
  match uid with
  | Some n =>
      if Z.eqb n 0 then [NavLink "/" "Products"; NavLink "/register" "Register / Login"]
      else [NavLink "/" "Products"; NavLink "/cart" "Cart"; UserInfo n; LogoutButton]
  | None => [NavLink "/" "Products"; NavLink "/register" "Register / Login"]
  end.

(** The Logout button: [onClick={clearUser}]. *)
Definition logout (st : Session.t) : Session.t := Session.clearUser st.

End Header.

(** [components/ProductCard.tsx]. *)
Module ProductCard.

(** [handleAddToCart]: [if (onAddToCart && currentUserId)
    onAddToCart(product.id, 1)]; the call it makes, if any. *)
Definition handleAddToCart (hasCallback : bool) (uid : option Z) (p : ProductDto)
    : option (Z * Z) :=
  if hasCallback && uid_truthy uid then Some (product_id p, 1) else None.

(** The description paragraph: shown for a truthy description, cut to
    its first 100 characters followed by ["..."] when it is longer. *)
Definition shown_description (d : option string) : option string :=
  match d with
  | Some s =>
      if String.eqb s "" then None
      else Some (if Nat.ltb 100 (String.length s)
                 then String.substring 0 100 s ++ "..." else s)
  | None => None
  end.

Inductive action : Type :=
  (** the button: disabled flag and label *)
  | AddButton (disabled : bool) (label : string)
  | RegisterLink.

Definition action_of (uid : option Z) (p : ProductDto) : action :=
  if uid_truthy uid then
    let out := Z.leb (stockQuantity p) 0 in
    AddButton out (if out then "Out of Stock" else "Add to Cart")
  else RegisterLink.

(** A click on a card's button on the Home page, whose grid passes
    [onAddToCart={handleAddToCart}]. *)
Definition click_on_home (uid : option Z) (p : ProductDto) (st : Home.t)
    (res : settled unit) : Home.t * list effect :=
  match handleAddToCart true uid p with
  | Some (pid, q) => Home.handleAddToCart uid pid q st res
  | None => (st, [])
  end.

End ProductCard.

(** Strings as the email regex and the required-field checks see them. *)
Module Lang.

(** Empty or white space only: what [!s.trim()] rejects. *)
Fixpoint blank (s : Str.ustring) : bool :=
  match s with
  | c :: s' => Str.is_ws c && blank s'
  | [] => true
  end.

(** A match of [[^\s@]+]. *)
Definition part (s : Str.ustring) : Prop :=
  s <> [] /\ Str.no_ws s = true /\ Str.count_char 64 s = 0%nat.

(** The language of [/^[^\s@]+@[^\s@]+\.[^\s@]+$/] (["@"] is 64, ["."] is 46). *)
Definition email_lang (s : Str.ustring) : Prop :=
  exists a b c, s = (a ++ [64] ++ b ++ [46] ++ c)%list /\ part a /\ part b /\ part c.

End Lang.

(* ------------------------------------------------------------------ *)
(** ** Loading the product detail page *)
(* ------------------------------------------------------------------ *)

Module ProductDetailLoad.

Import ProductDetail.

Definition set_loading v (st : t) : t :=
  {| product := product st; loading := v; error := error st;
     quantity := quantity st; message := message st |}.
Definition set_product v (st : t) : t :=
  {| product := v; loading := loading st; error := error st;
     quantity := quantity st; message := message st |}.

(** [loadProduct(productId)], with [res] how [getProductById] settles. *)
Definition loadProduct (productId : Z) (st : t) (res : settled ProductDto)
    : t * list effect :=
  let st1 := ProductDetail.set_error None (set_loading true st) in
  let st2 :=
    match res with
    | Fulfilled data => set_product (Some data) st1
    | Failed err =>
        ProductDetail.set_error (Some (err_message err "Failed to load product")) st1
    end in
  (set_loading false st2, [Issue (CallGetProduct productId)]).

End ProductDetailLoad.

(* ------------------------------------------------------------------ *)
(** ** A run of the cart page's handlers *)
(* ------------------------------------------------------------------ *)

Module CartRun.

Import CartPage.

(** What the mounted cart page can run: [loadCart()] (the effect, on a
    change of [currentUserId]), [handleRemove(productId)] (a row's Remove
    button) and [handleCheckout()]. *)
Inductive action : Type :=
  | Load (res : settled (list CartItemDto))
  | Remove (productId : Z) (res : settled unit) (reload : settled (list CartItemDto))
  | Checkout (res : settled CheckoutResultDto).

Definition step (uid : option Z) (st : t) (a : action) : t * list effect :=
  match a with
  | Load res => loadCart uid st res
  | Remove pid res reload => handleRemove uid pid st res reload
  | Checkout res => handleCheckout uid st res
  end.

(** The handlers run one after the other on the same component state,
    their effects collected in order. *)
Fixpoint run (uid : option Z) (st : t) (acts : list action) : t * list effect :=
  match acts with
  | [] => (st, [])
  | a :: rest =>
      let (st1, e1) := step uid st a in
      let (st2, e2) := run uid st1 rest in
      (st2, app e1 e2)
  end.

End CartRun.

(* ================================================================== *)
(** * Properties *)
(* ================================================================== *)

(* ------------------------------------------------------------------ *)
(** ** [handleResponse] *)
(* ------------------------------------------------------------------ *)

Module HandleResponseFacts.

Import Api Obs.

(** The message [handleResponse] rejects with on a non-2xx response. *)
Lemma handleResponse_not_ok res :
  ok res = false ->
  handleResponse res =
    (Rejected
       (to_string
          (if truthy (error_field res) then default JNull (error_field res)
           else if String.eqb (statusText res) "" then
             JStr ("HTTP " ++ pretty (status res))
           else JStr (statusText res))), true).
Proof.
  intros Hok. unfold handleResponse, error_field. rewrite Hok. cbv zeta.
  destruct (body res) as [v|m].
  - destruct (member "message" (Some v)) as [j|].
    + destruct (truthy (Some j)) eqn:Ht; rewrite ?Ht; [reflexivity|].
      destruct (String.eqb (statusText res) "") eqn:E;
        unfold truthy; rewrite ?E; reflexivity.
    + destruct (String.eqb (statusText res) "") eqn:E;
        unfold truthy; rewrite ?E; reflexivity.
  - destruct (String.eqb (statusText res) "") eqn:E;
      unfold truthy; rewrite ?E; reflexivity.
Qed.

Lemma ok_204 res : status res = 204 -> ok res = true.
Proof. intros H. unfold ok. rewrite H. reflexivity. Qed.

(** C1 (code bug). On a non-2xx response [handleResponse] rejects with a
    message that is empty exactly when the body's [message] member is
    truthy but converts to the empty string (an empty array, [[null]],
    [[""]], ...): the fallback [err || `HTTP ${res.status}`] replaces
    only a falsy [err], so such a member passes through and
    [new Error(err)] has the message [""]. Every other non-2xx response
    gets a non-empty message. *)
Theorem handleResponse_empty_message_exactly (res : Response) :
  ok res = false ->
  snd (handleResponse res) = true /\
  exists msg, fst (handleResponse res) = Rejected msg /\
    (msg = "" <-> exists m, error_field res = Some m /\ truthy (Some m) = true /\
                            to_string m = "").
Proof.
  intros Hok. rewrite (handleResponse_not_ok res Hok). cbn [fst snd].
  split; [reflexivity|]. eexists. split; [reflexivity|].
  destruct (truthy (error_field res)) eqn:Ht.
  - destruct (error_field res) as [m|] eqn:Hm; [|discriminate]. cbn [default].
    split; [intros H; exists m; auto | intros (m' & E & _ & H); injection E as <-; exact H].
  - split.
    + destruct (String.eqb (statusText res) "") eqn:Hs; simpl.
      * intros H. discriminate H.
      * intros H. apply String.eqb_neq in Hs. contradiction.
    + intros (m & E & Htm & _). rewrite E in Ht. congruence.
Qed.

(** Witness for C1: the 404 [res_empty_array_message], whose body is
    [{"message": []}] and whose status text is empty, rejects with [""]. *)
Lemma handleResponse_empty_message_exactly_witness :
  ok res_empty_array_message = false /\
  fst (handleResponse res_empty_array_message) = Rejected "".
Proof.
  split; [reflexivity|].
  destruct (handleResponse_empty_message_exactly res_empty_array_message eq_refl)
    as (_ & msg & E & Hiff).
  rewrite E. f_equal. apply Hiff. exists (JArr []). repeat split.
Defined.

(** C6. On every 2xx response other than 204, [handleResponse] calls
    [res.json()]; a body that fails to parse makes it reject with the
    parse error, a body that parses makes it resolve with the parsed
    value, and it never resolves with [undefined]. The void endpoints
    ([addToCart], [removeFromCart], [deleteUser]) return exactly this
    promise, so the same holds for them. *)
Theorem handleResponse_ok_parses (res : Response) :
  ok res = true -> status res <> 204 ->
  snd (handleResponse res) = true /\
  (forall m, body res = ParseError m -> fst (handleResponse res) = Rejected m) /\
  (forall v, body res = Parsed v -> fst (handleResponse res) = Resolved (Some v)) /\
  fst (handleResponse res) <> Resolved None.
Proof.
  intros Hok H204. unfold handleResponse. rewrite Hok.
  apply Z.eqb_neq in H204. rewrite H204.
  destruct (body res) as [v|m]; simpl.
  - repeat split; [intros m Hm; discriminate | intros v' Hv; inversion Hv; reflexivity
                  | discriminate].
  - repeat split; [intros m' Hm; inversion Hm; reflexivity | intros v' Hv; discriminate
                  | discriminate].
Qed.

(** Witness for C6: a 200 with an empty body, as a void endpoint may send. *)
Lemma handleResponse_ok_parses_witness :
  fst (handleResponse {| status := 200; statusText := "OK";
                         body := ParseError "Unexpected end of JSON input" |})
  = Rejected "Unexpected end of JSON input".
Proof.
  apply (proj1 (proj2 (handleResponse_ok_parses
                         {| status := 200; statusText := "OK";
                            body := ParseError "Unexpected end of JSON input" |}
                         eq_refl ltac:(discriminate))) "Unexpected end of JSON input").
  reflexivity.
Defined.

(** C7. On every response with status 204, [handleResponse] resolves with
    [undefined] and does not call [res.json()]. *)
Theorem handleResponse_204 (res : Response) :
  status res = 204 -> handleResponse res = (Resolved None, false).
Proof.
  intros H. unfold handleResponse. rewrite (ok_204 res H), H. reflexivity.
Qed.

(** Witness for C7. *)
Lemma handleResponse_204_witness :
  handleResponse {| status := 204; statusText := "No Content";
                    body := ParseError "Unexpected end of JSON input" |}
  = (Resolved None, false).
Proof. apply handleResponse_204. reflexivity. Defined.

End HandleResponseFacts.

(* ------------------------------------------------------------------ *)
(** ** Request headers *)
(* ------------------------------------------------------------------ *)

Module HeaderFacts.

Import Api.

(** C5 (code_bug). [deleteUser] and [removeFromCart] pass no [headers] to
    [fetch], so they send no [Accept: application/json]; every other
    request sends it, and every request with a JSON body also sends
    [Content-Type: application/json]. *)
Theorem delete_requests_lack_accept (BASE : string) :
  has_header "Accept" "application/json" (deleteUser BASE 1) = false /\
  has_header "Accept" "application/json" (removeFromCart BASE 1 2) = false /\
  (forall id, headers (deleteUser BASE id) = []) /\
  (forall u p, headers (removeFromCart BASE u p) = []) /\
  (forall id,
     Forall (fun r => has_header "Accept" "application/json" r = true)
            [getUsers BASE; getProducts BASE; getUserById BASE id;
             getProductById BASE id; getCart BASE id; checkout BASE id]) /\
  (forall dto id u,
     Forall (fun r => has_header "Content-Type" "application/json" r = true /\
                      has_header "Accept" "application/json" r = true)
            [createUser BASE dto; updateUser BASE id dto; addToCart BASE u dto]).
Proof.
  split; [reflexivity|]. split; [reflexivity|].
  split; [reflexivity|]. split; [reflexivity|].
  split.
  - intros id. repeat constructor.
  - intros dto id u. repeat constructor.
Qed.

End HeaderFacts.

(* ------------------------------------------------------------------ *)
(** ** The persisted user id *)
(* ------------------------------------------------------------------ *)

Module SessionFacts.

Import Session.

(** C10. After every [setCurrentUserId] or [clearUser], the storage entry
    under ["ai-store-user-id"] is the decimal form of the current id when
    the id is non-null and is absent when the id is null. *)
Theorem storage_tracks_user_id (o : op) (st : t) :
  storage (run_op o st) !! USER_ID_STORAGE_KEY
  = option_map pretty (currentUserId (run_op o st)).
Proof.
  destruct o as [[n|]|]; simpl.
  - apply lookup_insert_eq.
  - apply lookup_delete_eq.
  - apply lookup_delete_eq.
Qed.

End SessionFacts.

(* ------------------------------------------------------------------ *)
(** ** Entering the cart page *)
(* ------------------------------------------------------------------ *)

Module CartEnterFacts.

Import CartPage Obs.

(** C8. Entering the cart page with no user id navigates to ["/register"],
    issues no request at all (so no cart fetch), leaves the page state
    untouched, and renders nothing meanwhile. *)
Theorem anonymous_cart_redirects (st : CartPage.t) (res : settled (list CartItemDto)) :
  onEnter None st res = (st, [Navigate "/register"]) /\
  issues_get_cart (snd (onEnter None st res)) = false /\
  render None st = ViewNothing.
Proof. repeat split. Qed.

End CartEnterFacts.

(* ------------------------------------------------------------------ *)
(** ** Checkout on the cart page *)
(* ------------------------------------------------------------------ *)

Module CheckoutFacts.

Import CartPage Obs.

(** C2. When [checkout] resolves with a result whose [success] is false,
    the result is stored and rendered as the failure card with its
    message, the cart items are left as they were and no error is
    recorded (the handler completes normally); when [success] is true the
    cart items are cleared. *)
Theorem checkout_resolved_result (n : Z) (st : CartPage.t) (r : CheckoutResultDto) :
  n <> 0 -> cartItems st <> [] ->
  snd (handleCheckout (Some n) st (Fulfilled r)) = [Issue (CallCheckout n)] /\
  checkoutResult (fst (handleCheckout (Some n) st (Fulfilled r))) = Some r /\
  (success r = false ->
     cartItems (fst (handleCheckout (Some n) st (Fulfilled r))) = cartItems st /\
     error (fst (handleCheckout (Some n) st (Fulfilled r))) = None /\
     (loading st = false ->
        exists purchased,
          render (Some n) (fst (handleCheckout (Some n) st (Fulfilled r)))
          = ViewResult false "Checkout Failed" (message r) None purchased)) /\
  (success r = true ->
     cartItems (fst (handleCheckout (Some n) st (Fulfilled r))) = []).
Proof.
  intros Hn Hitems. apply Z.eqb_neq in Hn.
  unfold handleCheckout. rewrite Hn.
  destruct (cartItems st) as [|x xs] eqn:Hc; [congruence|].
  destruct (success r) eqn:Hs; simpl.
  - repeat split; intros; discriminate.
  - repeat split; try (intros; discriminate); [exact Hc|].
    intros Hl. unfold render. simpl. rewrite Hn, Hl, Hs. simpl.
    eexists. reflexivity.
Qed.

(** Witness for C2: a one-line cart and the result
    [{success: false, message: "Some items out of stock"}]. *)
Lemma checkout_resolved_result_witness :
  cartItems (fst (handleCheckout (Some 1) cart_loaded (Fulfilled out_of_stock_result)))
  = [laptop_line].
Proof.
  apply (proj1 (proj2 (proj2 (checkout_resolved_result 1 cart_loaded out_of_stock_result
                                ltac:(discriminate) ltac:(discriminate))))).
  reflexivity.
Defined.

End CheckoutFacts.

(* ------------------------------------------------------------------ *)
(** ** Quantity input and the add-to-cart guards of the detail page *)
(* ------------------------------------------------------------------ *)

Module QuantityFacts.

Import ProductDetail Obs.

Ltac bool_facts :=
  repeat match goal with
  | H : (_ && _) = true |- _ => apply andb_true_iff in H as [? ?]
  | H : (_ || _) = true |- _ => apply orb_true_iff in H as [H|H]
  | H : Z.leb _ _ = true |- _ => apply Z.leb_le in H
  | H : Z.eqb _ _ = true |- _ => apply Z.eqb_eq in H
  end.

Lemma digit_range c d : Str.digit_value c = Some d -> 48 <= c <= 57.
Proof.
  unfold Str.digit_value. destruct (Z.leb 48 c && Z.leb c 57) eqn:E; [|discriminate].
  intros _. bool_facts. lia.
Qed.

Lemma digit_not_ws c d : Str.digit_value c = Some d -> Str.is_ws c = false.
Proof.
  intros H. apply digit_range in H. apply not_true_iff_false. intros Hw.
  unfold Str.is_ws in Hw. bool_facts; lia.
Qed.

Lemma skip_ws_blank_app w s : Lang.blank w = true -> Str.skip_ws (w ++ s)%list = Str.skip_ws s.
Proof.
  induction w as [|c w IH]; simpl; [reflexivity|].
  intros H. apply andb_true_iff in H as [Hc Hw]. rewrite Hc. exact (IH Hw).
Qed.

Lemma leading_digits_app ds rest :
  digits_only ds = true ->
  Str.leading_digits (ds ++ rest)%list = app (Str.leading_digits ds) (Str.leading_digits rest).
Proof.
  induction ds as [|c ds IH]; simpl; [reflexivity|].
  destruct (Str.digit_value c) as [d|]; [|discriminate].
  intros H. rewrite IH by exact H. reflexivity.
Qed.

Lemma parse_digits_app ds rest :
  ds <> [] -> digits_only ds = true -> Str.leading_digits rest = [] ->
  Str.parse_digits (ds ++ rest)%list = Some (Str.digits_to_Z (Str.leading_digits ds)).
Proof.
  intros Hne Hd Hr. unfold Str.parse_digits.
  rewrite (leading_digits_app _ _ Hd), Hr, app_nil_r.
  destruct ds as [|c ds']; [congruence|]. simpl in Hd |- *.
  destruct (Str.digit_value c); [reflexivity | discriminate].
Qed.

(** Only white space: [parseInt] gives [NaN]. *)
Lemma parseInt_blank s : Lang.blank s = true -> Str.parseInt s = None.
Proof.
  intros H. unfold Str.parseInt.
  rewrite <- (app_nil_r s), (skip_ws_blank_app s [] H). reflexivity.
Qed.

(** White space, then digits up to a non-digit: their value. *)
Lemma parseInt_digits w ds rest :
  Lang.blank w = true -> ds <> [] -> digits_only ds = true ->
  Str.leading_digits rest = [] ->
  Str.parseInt (w ++ ds ++ rest)%list = Some (Str.digits_to_Z (Str.leading_digits ds)).
Proof.
  intros Hw Hne Hd Hr. unfold Str.parseInt. rewrite (skip_ws_blank_app w _ Hw).
  destruct ds as [|c ds']; [congruence|].
  assert (Hc : exists d, Str.digit_value c = Some d).
  { simpl in Hd. destruct (Str.digit_value c) as [d|]; [eauto|discriminate]. }
  destruct Hc as [d Hcd]. pose proof (digit_range c d Hcd) as Hrg.
  simpl. rewrite (digit_not_ws c d Hcd).
  assert (E1 : Z.eqb c 45 = false) by (apply Z.eqb_neq; lia).
  assert (E2 : Z.eqb c 43 = false) by (apply Z.eqb_neq; lia).
  rewrite E1, E2.
  exact (parse_digits_app (c :: ds') rest ltac:(discriminate) Hd Hr).
Qed.

(** White space, then a sign: the digits after the sign, negated for ["-"]. *)
Lemma parseInt_signed w x :
  Lang.blank w = true ->
  Str.parseInt (w ++ 45 :: x)%list = option_map Z.opp (Str.parse_digits x) /\
  Str.parseInt (w ++ 43 :: x)%list = Str.parse_digits x.
Proof.
  intros Hw. unfold Str.parseInt. rewrite !(skip_ws_blank_app w _ Hw).
  split; reflexivity.
Qed.

(** White space, then neither a digit nor a sign: [NaN]. *)
Lemma parseInt_other w c rest :
  Lang.blank w = true -> Str.is_ws c = false -> Str.digit_value c = None ->
  c <> 45 -> c <> 43 ->
  Str.parseInt (w ++ c :: rest)%list = None.
Proof.
  intros Hw Hws Hd Hm Hp. unfold Str.parseInt. rewrite (skip_ws_blank_app w _ Hw).
  simpl. rewrite Hws.
  apply Z.eqb_neq in Hm, Hp. rewrite Hm, Hp.
  unfold Str.parse_digits. simpl. rewrite Hd. reflexivity.
Qed.

(** C3 (counterexample). The number input's value [".5"] (one half, a
    valid value of [<input type="number">]) has no digit before the
    point, so [parseInt] gives [NaN] and the quantity becomes 1, not the
    truncation 0; with 5 in stock the request then adds one unit. *)
Lemma decimal_without_integer_part_cex :
  quantity (onQuantityChange (Str.of_string ".5") (detail_loaded 0)) = 1 /\
  snd (handleAddToCart (Some 123) (onQuantityChange (Str.of_string ".5") (detail_loaded 0))
         (Fulfilled tt))
  = [Issue (CallAddToCart 123 1 1); SetTimeout ClearMessage 3000].
Proof. split; vm_compute; reflexivity. Qed.

(** C3 (amended). On the detail page of a loaded product (the quantity
    control is rendered only for a truthy user id), the add-to-cart
    request is issued exactly when [0 < q <= stock], with quantity [q];
    for [q <= 0] the message "Quantity must be greater than 0" and for
    [q > stock] (stock being non-negative) the message "Only {stock}
    items available in stock" is set (and shown in the banner), without
    a request. The input handler sets [q] to [parseInt(value, 10)], or 1
    for [NaN]: after leading white space and an optional sign, [q] is
    the value of the longest run of decimal digits, negated for ["-"];
    an input with no digit there (empty, white space, non-numeric, a
    bare sign, [".5"], ["-.5"]) gives 1, and the digits stop at the first
    non-digit (["3.7"] gives 3, ["-2.9"] gives -2, ["1e3"] gives 1). *)
Theorem add_to_cart_quantity_guards (uid : option Z) (st : ProductDetail.t)
    (p : ProductDto) (res : settled unit) :
  uid_truthy uid = true -> product st = Some p ->
  (issues_add_to_cart (snd (handleAddToCart uid st res)) = true
     <-> 0 < quantity st <= stockQuantity p) /\
  (0 < quantity st <= stockQuantity p ->
     hd_error (snd (handleAddToCart uid st res))
     = Some (Issue (CallAddToCart (default 0 uid) (product_id p) (quantity st)))) /\
  (quantity st <= 0 ->
     message (fst (handleAddToCart uid st res)) = Some "Quantity must be greater than 0" /\
     snd (handleAddToCart uid st res) = [] /\
     (loading st = false -> str_truthy (error st) = false ->
        render uid (fst (handleAddToCart uid st res))
        = ViewProduct p (Some "Quantity must be greater than 0")
            (AddControls (quantity st) (Z.leb (stockQuantity p) 0)))) /\
  (0 <= stockQuantity p -> stockQuantity p < quantity st ->
     message (fst (handleAddToCart uid st res))
     = Some ("Only " ++ pretty (stockQuantity p) ++ " items available in stock") /\
     snd (handleAddToCart uid st res) = [] /\
     (loading st = false -> str_truthy (error st) = false ->
        render uid (fst (handleAddToCart uid st res))
        = ViewProduct p
            (Some ("Only " ++ pretty (stockQuantity p) ++ " items available in stock"))
            (AddControls (quantity st) (Z.leb (stockQuantity p) 0)))) /\
  (forall s st0, Lang.blank s = true -> quantity (onQuantityChange s st0) = 1) /\
  (forall w c rest st0,
     Lang.blank w = true -> Str.is_ws c = false -> Str.digit_value c = None ->
     c <> 45 -> c <> 43 ->
     quantity (onQuantityChange (w ++ c :: rest)%list st0) = 1) /\
  (forall w rest st0,
     Lang.blank w = true -> Str.leading_digits rest = [] ->
     quantity (onQuantityChange (w ++ 45 :: rest)%list st0) = 1 /\
     quantity (onQuantityChange (w ++ 43 :: rest)%list st0) = 1) /\
  (forall w ds rest st0,
     Lang.blank w = true -> ds <> [] -> digits_only ds = true ->
     Str.leading_digits rest = [] ->
     quantity (onQuantityChange (w ++ ds ++ rest)%list st0)
       = Str.digits_to_Z (Str.leading_digits ds) /\
     quantity (onQuantityChange (w ++ 45 :: ds ++ rest)%list st0)
       = - Str.digits_to_Z (Str.leading_digits ds) /\
     quantity (onQuantityChange (w ++ 43 :: ds ++ rest)%list st0)
       = Str.digits_to_Z (Str.leading_digits ds)).
Proof.
  intros Hu Hp.
  assert (Hgo : negb (uid_truthy uid) = false) by (rewrite Hu; reflexivity).
  split; [|split; [|split; [|split; [|split; [|split; [|split]]]]]].
  - unfold handleAddToCart. rewrite Hgo, Hp.
    destruct (Z.leb (quantity st) 0) eqn:E1.
    + apply Z.leb_le in E1. simpl. split; [discriminate | lia].
    + apply Z.leb_gt in E1. destruct (Z.ltb (stockQuantity p) (quantity st)) eqn:E2.
      * apply Z.ltb_lt in E2. simpl. split; [discriminate | lia].
      * apply Z.ltb_ge in E2. destruct res; simpl; split; (reflexivity || lia).
  - intros [H1 H2]. unfold handleAddToCart. rewrite Hgo, Hp.
    assert (E1 : Z.leb (quantity st) 0 = false) by (apply Z.leb_gt; lia).
    assert (E2 : Z.ltb (stockQuantity p) (quantity st) = false) by (apply Z.ltb_ge; lia).
    rewrite E1, E2. destruct res; reflexivity.
  - intros H. unfold handleAddToCart. rewrite Hgo, Hp.
    assert (E1 : Z.leb (quantity st) 0 = true) by (apply Z.leb_le; lia).
    rewrite E1. split; [reflexivity | split; [reflexivity|]].
    intros Hl He. unfold render. simpl. rewrite Hl, Hp, Hu.
    destruct (error st) as [e|]; simpl in *; rewrite ?He; reflexivity.
  - intros H0 H. unfold handleAddToCart. rewrite Hgo, Hp.
    assert (E1 : Z.leb (quantity st) 0 = false) by (apply Z.leb_gt; lia).
    assert (E2 : Z.ltb (stockQuantity p) (quantity st) = true) by (apply Z.ltb_lt; lia).
    rewrite E1, E2. split; [reflexivity | split; [reflexivity|]].
    intros Hl He. unfold render. simpl. rewrite Hl, Hp, Hu.
    destruct (error st) as [e|]; simpl in *; rewrite ?He; reflexivity.
  - intros s st0 Hs. unfold onQuantityChange. simpl. rewrite (parseInt_blank s Hs). reflexivity.
  - intros w c rest st0 Hw Hws Hd Hm Hpl. unfold onQuantityChange. simpl.
    rewrite (parseInt_other w c rest Hw Hws Hd Hm Hpl). reflexivity.
  - intros w rest st0 Hw Hr. destruct (parseInt_signed w rest Hw) as [Hm Hpl].
    unfold onQuantityChange. simpl. rewrite Hm, Hpl. unfold Str.parse_digits. rewrite Hr.
    split; reflexivity.
  - intros w ds rest st0 Hw Hne Hd Hr. unfold onQuantityChange. simpl.
    rewrite (parseInt_digits w ds rest Hw Hne Hd Hr).
    destruct (parseInt_signed w (ds ++ rest)%list Hw) as [Hm Hpl].
    rewrite Hm, Hpl, (parse_digits_app ds rest Hne Hd Hr). split; [|split]; reflexivity.
Qed.

(** Witness for C3: stock 5, quantity 6 is refused with
    "Only 5 items available in stock"; the input ["3.7"] is read as 3. *)
Lemma add_to_cart_quantity_guards_witness :
  ProductDetail.message
    (fst (handleAddToCart (Some 123) (detail_loaded 6) (Fulfilled tt)))
  = Some "Only 5 items available in stock" /\
  quantity (onQuantityChange (Str.of_string "3.7") (detail_loaded 1)) = 3.
Proof.
  pose proof (add_to_cart_quantity_guards (Some 123) (detail_loaded 6) laptop (Fulfilled tt)
                eq_refl eq_refl) as (_ & _ & _ & H4 & _ & _ & _ & H8).
  split.
  - apply (proj1 (H4 ltac:(vm_compute; discriminate) ltac:(vm_compute; reflexivity))).
  - exact (proj1 (H8 [] (Str.of_string "3") (Str.of_string ".7") (detail_loaded 1)
                    eq_refl ltac:(discriminate) eq_refl eq_refl)).
Defined.

End QuantityFacts.

(* ------------------------------------------------------------------ *)
(** ** Messages of caught rejections *)
(* ------------------------------------------------------------------ *)

Module RejectionFacts.

Import Obs.

(** C9. At the product-list fetch, the cart fetch and registration, a
    caught [Error] sets the page error to exactly its message, and any
    other caught value ([null], a string, a plain object, ...) sets it to
    the call site's fallback: "Failed to load products", "Failed to load
    cart", "Failed to create user". On the product list the message is
    what the error view shows. *)
Theorem caught_rejection_messages :
  (forall st m,
     Home.error (fst (Home.loadProducts st (Failed (ErrorInstance m)))) = Some m /\
     (m <> "" -> Home.render (fst (Home.loadProducts st (Failed (ErrorInstance m))))
                 = Home.ViewError m)) /\
  (forall st v,
     Home.error (fst (Home.loadProducts st (Failed (NonError v))))
       = Some "Failed to load products" /\
     Home.render (fst (Home.loadProducts st (Failed (NonError v))))
       = Home.ViewError "Failed to load products") /\
  (forall n st m, n <> 0 ->
     CartPage.error (fst (CartPage.loadCart (Some n) st (Failed (ErrorInstance m))))
       = Some m) /\
  (forall n st v, n <> 0 ->
     CartPage.error (fst (CartPage.loadCart (Some n) st (Failed (NonError v))))
       = Some "Failed to load cart") /\
  (forall st m, register_input_valid st = true ->
     Register.error (fst (Register.handleSubmit st (Failed (ErrorInstance m))))
       = Some m) /\
  (forall st v, register_input_valid st = true ->
     Register.error (fst (Register.handleSubmit st (Failed (NonError v))))
       = Some "Failed to create user").
Proof.
  split; [|split; [|split; [|split; [|split]]]].
  - intros st m. split; [reflexivity|]. intros Hm.
    unfold Home.render, str_truthy. simpl.
    apply String.eqb_neq in Hm. rewrite Hm. reflexivity.
  - intros st v. split; reflexivity.
  - intros n st m Hn. apply Z.eqb_neq in Hn. unfold CartPage.loadCart. rewrite Hn. reflexivity.
  - intros n st v Hn. apply Z.eqb_neq in Hn. unfold CartPage.loadCart. rewrite Hn. reflexivity.
  - intros st m Hv. unfold register_input_valid in Hv.
    apply andb_true_iff in Hv as [Hv He]. apply andb_true_iff in Hv as [Hu Hm].
    apply negb_true_iff in Hu, Hm. unfold Register.handleSubmit. simpl.
    rewrite Hu, Hm, He. reflexivity.
  - intros st v Hv. unfold register_input_valid in Hv.
    apply andb_true_iff in Hv as [Hv He]. apply andb_true_iff in Hv as [Hu Hm].
    apply negb_true_iff in Hu, Hm. unfold Register.handleSubmit. simpl.
    rewrite Hu, Hm, He. reflexivity.
Qed.

(** Witness for C9: registration of "alice" / "alice@example.com" rejected
    with a plain object shows "Failed to create user". *)
Lemma caught_rejection_messages_witness :
  Register.error (fst (Register.handleSubmit register_filled
                         (Failed (NonError (JObj [("status", JNum 500)])))))
  = Some "Failed to create user".
Proof.
  apply (proj2 (proj2 (proj2 (proj2 (proj2 caught_rejection_messages))))).
  vm_compute. reflexivity.
Defined.

End RejectionFacts.

(* ------------------------------------------------------------------ *)
(** ** Transient actions and the pages' primary state *)
(* ------------------------------------------------------------------ *)

Module ActionFacts.

Import Obs.

(** C4 (counterexample). On the product list, a rejected add-to-cart
    request ("Insufficient stock") sets the page error, and the page
    renders its error view instead of the product list. *)
Lemma home_add_rejected_hides_products_cex :
  Home.render home_loaded = Home.ViewProducts None [laptop] /\
  Home.render (fst (Home.handleAddToCart (Some 1) 1 1 home_loaded
                      (Failed (ErrorInstance "Insufficient stock"))))
  = Home.ViewError "Insufficient stock".
Proof. split; reflexivity. Qed.

Lemma home_add_unissued_or_fulfilled uid pid q st res :
  (issues_add_to_cart (snd (Home.handleAddToCart uid pid q st res)) = false \/
   exists u, res = Fulfilled u) ->
  Home.products (fst (Home.handleAddToCart uid pid q st res)) = Home.products st /\
  Home.loading (fst (Home.handleAddToCart uid pid q st res)) = Home.loading st /\
  Home.error (fst (Home.handleAddToCart uid pid q st res)) = Home.error st.
Proof.
  unfold Home.handleAddToCart. intros H.
  destruct uid as [n|]; [|repeat split].
  destruct (Z.eqb n 0); [repeat split|].
  destruct res as [u|e]; [repeat split|].
  simpl in H. destruct H as [H|[u' H]]; discriminate.
Qed.

Lemma detail_add_unissued_or_fulfilled uid st res :
  (issues_add_to_cart (snd (ProductDetail.handleAddToCart uid st res)) = false \/
   exists u, res = Fulfilled u) ->
  ProductDetail.product (fst (ProductDetail.handleAddToCart uid st res))
    = ProductDetail.product st /\
  ProductDetail.loading (fst (ProductDetail.handleAddToCart uid st res))
    = ProductDetail.loading st /\
  ProductDetail.error (fst (ProductDetail.handleAddToCart uid st res))
    = ProductDetail.error st.
Proof.
  unfold ProductDetail.handleAddToCart. intros H.
  destruct (negb (uid_truthy uid)); [repeat split|].
  destruct (ProductDetail.product st) as [p|] eqn:Hp; [|simpl; rewrite Hp; repeat split].
  destruct (Z.leb (ProductDetail.quantity st) 0);
    [repeat split; simpl; rewrite ?Hp; reflexivity|].
  destruct (Z.ltb (stockQuantity p) (ProductDetail.quantity st));
    [repeat split; simpl; rewrite ?Hp; reflexivity|].
  destruct res as [u|e]; [repeat split; simpl; rewrite ?Hp; reflexivity|].
  simpl in H. destruct H as [H|[u' H]]; discriminate.
Qed.

Lemma detail_add_rejected uid st e :
  issues_add_to_cart (snd (ProductDetail.handleAddToCart uid st (Failed e))) = true ->
  ProductDetail.product (fst (ProductDetail.handleAddToCart uid st (Failed e)))
    = ProductDetail.product st /\
  ProductDetail.error (fst (ProductDetail.handleAddToCart uid st (Failed e)))
    = Some (err_message e "Failed to add to cart") /\
  (ProductDetail.loading st = false -> err_message e "Failed to add to cart" <> "" ->
   ProductDetail.render uid (fst (ProductDetail.handleAddToCart uid st (Failed e)))
   = ProductDetail.ViewError (err_message e "Failed to add to cart")).
Proof.
  unfold ProductDetail.handleAddToCart.
  destruct (negb (uid_truthy uid)); [discriminate|].
  destruct (ProductDetail.product st) as [p|] eqn:Hp; [|discriminate].
  destruct (Z.leb (ProductDetail.quantity st) 0); [discriminate|].
  destruct (Z.ltb (stockQuantity p) (ProductDetail.quantity st)); [discriminate|].
  intros _. split; [exact Hp|]. split; [reflexivity|].
  intros Hl Hm. unfold ProductDetail.render, str_truthy. simpl. rewrite Hl, Hp.
  apply String.eqb_neq in Hm. rewrite Hm. reflexivity.
Qed.

Lemma cart_view_with_banner uid st m :
  uid_truthy uid = true -> CartPage.loading st = false ->
  CartPage.checkoutResult st = None -> CartPage.cartItems st <> [] ->
  CartPage.error st = Some m -> m <> "" ->
  CartPage.render uid st = CartPage.ViewItems (Some m) (CartPage.cartItems st).
Proof.
  intros Hu Hl Hc Hi He Hm. unfold CartPage.render, str_truthy.
  rewrite Hu, Hl, Hc, He. apply String.eqb_neq in Hm. simpl. rewrite Hm.
  destruct (CartPage.cartItems st); [congruence | reflexivity].
Qed.

(** C4 (amended). On the product list and the detail page, every
    add-to-cart outcome other than a rejected request (a refused guard,
    the anonymous prompt, a fulfilled request) leaves the loaded products
    or product, the loading flag and the page error as they were; a
    rejected request sets the page-level error to the rejection's message
    (or "Failed to add to cart"), and when that message is non-empty the
    page renders its error view in place of the products or product. On
    the cart page a rejected remove or checkout keeps the cart items and
    the checkout result and shows the message as a banner above the
    items. *)
Theorem transient_action_outcomes :
  (forall uid pid q st res,
     (issues_add_to_cart (snd (Home.handleAddToCart uid pid q st res)) = false \/
      exists u, res = Fulfilled u) ->
     Home.products (fst (Home.handleAddToCart uid pid q st res)) = Home.products st /\
     Home.loading (fst (Home.handleAddToCart uid pid q st res)) = Home.loading st /\
     Home.error (fst (Home.handleAddToCart uid pid q st res)) = Home.error st) /\
  (forall n pid q st e, n <> 0 ->
     Home.products (fst (Home.handleAddToCart (Some n) pid q st (Failed e)))
       = Home.products st /\
     Home.error (fst (Home.handleAddToCart (Some n) pid q st (Failed e)))
       = Some (err_message e "Failed to add to cart") /\
     (Home.loading st = false -> err_message e "Failed to add to cart" <> "" ->
      Home.render (fst (Home.handleAddToCart (Some n) pid q st (Failed e)))
      = Home.ViewError (err_message e "Failed to add to cart"))) /\
  (forall uid st res,
     (issues_add_to_cart (snd (ProductDetail.handleAddToCart uid st res)) = false \/
      exists u, res = Fulfilled u) ->
     ProductDetail.product (fst (ProductDetail.handleAddToCart uid st res))
       = ProductDetail.product st /\
     ProductDetail.loading (fst (ProductDetail.handleAddToCart uid st res))
       = ProductDetail.loading st /\
     ProductDetail.error (fst (ProductDetail.handleAddToCart uid st res))
       = ProductDetail.error st) /\
  (forall uid st e,
     issues_add_to_cart (snd (ProductDetail.handleAddToCart uid st (Failed e))) = true ->
     ProductDetail.product (fst (ProductDetail.handleAddToCart uid st (Failed e)))
       = ProductDetail.product st /\
     ProductDetail.error (fst (ProductDetail.handleAddToCart uid st (Failed e)))
       = Some (err_message e "Failed to add to cart") /\
     (ProductDetail.loading st = false -> err_message e "Failed to add to cart" <> "" ->
      ProductDetail.render uid (fst (ProductDetail.handleAddToCart uid st (Failed e)))
      = ProductDetail.ViewError (err_message e "Failed to add to cart"))) /\
  (forall n pid st e reload, n <> 0 ->
     CartPage.cartItems (fst (CartPage.handleRemove (Some n) pid st (Failed e) reload))
       = CartPage.cartItems st /\
     CartPage.checkoutResult (fst (CartPage.handleRemove (Some n) pid st (Failed e) reload))
       = CartPage.checkoutResult st /\
     CartPage.error (fst (CartPage.handleRemove (Some n) pid st (Failed e) reload))
       = Some (err_message e "Failed to remove item") /\
     (CartPage.loading st = false -> CartPage.checkoutResult st = None ->
      CartPage.cartItems st <> [] -> err_message e "Failed to remove item" <> "" ->
      CartPage.render (Some n) (fst (CartPage.handleRemove (Some n) pid st (Failed e) reload))
      = CartPage.ViewItems (Some (err_message e "Failed to remove item"))
          (CartPage.cartItems st))) /\
  (forall n st e, n <> 0 -> CartPage.cartItems st <> [] ->
     CartPage.cartItems (fst (CartPage.handleCheckout (Some n) st (Failed e)))
       = CartPage.cartItems st /\
     CartPage.checkoutResult (fst (CartPage.handleCheckout (Some n) st (Failed e)))
       = CartPage.checkoutResult st /\
     CartPage.error (fst (CartPage.handleCheckout (Some n) st (Failed e)))
       = Some (err_message e "Checkout failed") /\
     (CartPage.loading st = false -> CartPage.checkoutResult st = None ->
      err_message e "Checkout failed" <> "" ->
      CartPage.render (Some n) (fst (CartPage.handleCheckout (Some n) st (Failed e)))
      = CartPage.ViewItems (Some (err_message e "Checkout failed"))
          (CartPage.cartItems st))).
Proof.
  split; [exact home_add_unissued_or_fulfilled|].
  split.
  { intros n pid q st e Hn. apply Z.eqb_neq in Hn.
    unfold Home.handleAddToCart. rewrite Hn. simpl.
    split; [reflexivity | split; [reflexivity|]].
    intros Hl Hm. unfold Home.render, str_truthy. simpl. rewrite Hl.
    apply String.eqb_neq in Hm. rewrite Hm. reflexivity. }
  split; [exact detail_add_unissued_or_fulfilled|].
  split; [exact detail_add_rejected|].
  split.
  { intros n pid st e reload Hn. apply Z.eqb_neq in Hn.
    unfold CartPage.handleRemove. rewrite Hn. simpl.
    split; [reflexivity | split; [reflexivity | split; [reflexivity|]]].
    intros Hl Hc Hi Hm.
    match goal with |- CartPage.render _ ?s = _ =>
      change (CartPage.cartItems st) with (CartPage.cartItems s) end.
    apply cart_view_with_banner; simpl; auto.
    simpl. apply negb_true_iff, Z.eqb_neq. apply Z.eqb_neq in Hn. exact Hn. }
  intros n st e Hn Hi. apply Z.eqb_neq in Hn.
  unfold CartPage.handleCheckout. rewrite Hn.
  destruct (CartPage.cartItems st) as [|x xs] eqn:Hc; [congruence|]. simpl.
  split; [exact Hc | split; [reflexivity | split; [reflexivity|]]].
  intros Hl Hr Hm. rewrite <- Hc.
  match goal with |- CartPage.render _ ?s = _ =>
    change (CartPage.cartItems st) with (CartPage.cartItems s) end.
  apply cart_view_with_banner; simpl; auto.
  - simpl. apply negb_true_iff, Z.eqb_neq. apply Z.eqb_neq in Hn. exact Hn.
  - rewrite Hc. discriminate.
Qed.

(** Witness for C4 (amended): removing an item from a one-line cart
    fails with "Item not found in cart"; the line stays, under a banner. *)
Lemma transient_action_outcomes_witness :
  CartPage.render (Some 1)
    (fst (CartPage.handleRemove (Some 1) 1 cart_loaded
            (Failed (ErrorInstance "Item not found in cart")) (Fulfilled [])))
  = CartPage.ViewItems (Some "Item not found in cart") [laptop_line].
Proof.
  apply (proj2 (proj2 (proj2 (proj1 (proj2 (proj2 (proj2 (proj2 transient_action_outcomes))))
           1 1 cart_loaded (ErrorInstance "Item not found in cart") (Fulfilled [])
           ltac:(discriminate))))); try reflexivity; discriminate.
Defined.

End ActionFacts.

(* ------------------------------------------------------------------ *)
(** ** Reloading the session *)
(* ------------------------------------------------------------------ *)

Module SessionMountFacts.

Import Session SessionMount QuantityFacts.

Definition fold_digits (a : Z) (l : list Z) : Z :=
  fold_left (fun acc d => acc * 10 + d) l a.

Lemma of_string_cons c s :
  Str.of_string (String c s) = Z.of_nat (nat_of_ascii c) :: Str.of_string s.
Proof. reflexivity. Qed.

Lemma digit_value_pretty_N_char d :
  (d < 10)%N -> Str.digit_value (Z.of_nat (nat_of_ascii (pretty_N_char d))) = Some (Z.of_N d).
Proof.
  intros H.
  assert (d = 0 \/ d = 1 \/ d = 2 \/ d = 3 \/ d = 4 \/ d = 5 \/ d = 6 \/
          d = 7 \/ d = 8 \/ d = 9)%N as Hd by lia.
  repeat (destruct Hd as [->|Hd]; [reflexivity|]). subst. reflexivity.
Qed.

(** [pretty_N_go x s] writes the decimal digits of [x] in front of [s]. *)
Lemma pretty_N_go_digits (x : N) :
  forall s, exists k : nat, forall a,
    fold_digits a (Str.leading_digits (Str.of_string (pretty_N_go x s)))
    = fold_digits (a * 10 ^ Z.of_nat k + Z.of_N x) (Str.leading_digits (Str.of_string s)).
Proof.
  induction x as [x IH] using (well_founded_induction N.lt_wf_0). intros s.
  destruct (decide (x = 0%N)) as [->|Hx].
  - exists 0%nat. intros a. rewrite pretty_N_go_0. f_equal. simpl. lia.
  - rewrite pretty_N_go_step by lia.
    destruct (IH (x `div` 10)%N (N.div_lt x 10 ltac:(lia) eq_refl)
                 (String (pretty_N_char (x `mod` 10)) s)) as [k Hk].
    exists (S k). intros a. rewrite Hk. rewrite of_string_cons. simpl Str.leading_digits.
    rewrite digit_value_pretty_N_char by (apply N.mod_lt; lia).
    unfold fold_digits. simpl fold_left. f_equal.
    rewrite N2Z.inj_div, N2Z.inj_mod. simpl (Z.of_N 10).
    assert (Hdm : Z.of_N x = 10 * (Z.of_N x / 10) + Z.of_N x mod 10)
      by (apply Z.div_mod; lia).
    rewrite Nat2Z.inj_succ, Z.pow_succ_r by lia.
    transitivity (a * (10 * 10 ^ Z.of_nat k) + (10 * (Z.of_N x / 10) + Z.of_N x mod 10));
      [ring | rewrite <- Hdm; reflexivity].
Qed.

Lemma parse_digits_pretty_pos (p : positive) :
  exists c r, Str.of_string (pretty (Npos p)) = c :: r /\ Str.digit_value c <> None /\
              Str.parse_digits (Str.of_string (pretty (Npos p))) = Some (Zpos p).
Proof.
  unfold pretty, pretty_N. destruct (decide (N.pos p = 0%N)) as [H|_]; [discriminate|].
  destruct (pretty_N_go_digits (N.pos p) "") as [k Hk].
  unfold Str.parse_digits.
  destruct (Str.of_string (pretty_N_go (N.pos p) "")) as [|c r] eqn:E.
  - specialize (Hk 0). simpl in Hk. unfold fold_digits in Hk. simpl in Hk. lia.
  - exists c, r. split; [reflexivity|].
    specialize (Hk 0). simpl Str.leading_digits in Hk |- *.
    destruct (Str.digit_value c) as [d|] eqn:Hc.
    + split; [discriminate|]. f_equal. unfold Str.digits_to_Z.
      change (fold_left (fun acc d0 => acc * 10 + d0) (d :: Str.leading_digits r) 0)
        with (fold_digits 0 (d :: Str.leading_digits r)).
      rewrite Hk. unfold fold_digits. simpl. lia.
    + unfold fold_digits in Hk. simpl in Hk. lia.
Qed.

(** [parseInt] reads back the decimal form written by [toString]. *)
Lemma parseInt_pretty (z : Z) : Str.parseInt (Str.of_string (pretty z)) = Some z.
Proof.
  destruct z as [|p|p]; [reflexivity| |].
  - destruct (parse_digits_pretty_pos p) as (c & r & Hcr & Hc & Hp).
    change (pretty (Z.pos p)) with (pretty (N.pos p)). rewrite Hcr in *.
    destruct (Str.digit_value c) as [d|] eqn:Hd; [|congruence].
    pose proof (digit_range c d Hd) as Hrg.
    unfold Str.parseInt. simpl. rewrite (digit_not_ws c d Hd).
    assert (E1 : Z.eqb c 45 = false) by (apply Z.eqb_neq; lia).
    assert (E2 : Z.eqb c 43 = false) by (apply Z.eqb_neq; lia).
    rewrite E1, E2. exact Hp.
  - destruct (parse_digits_pretty_pos p) as (c & r & Hcr & Hc & Hp).
    change (Str.of_string (pretty (Z.neg p))) with (45 :: Str.of_string (pretty (N.pos p))).
    unfold Str.parseInt. simpl (Str.skip_ws _). cbv iota beta. simpl (Z.eqb 45 45).
    cbv iota beta. rewrite Hp. reflexivity.
Qed.

Lemma pretty_Z_nonempty (z : Z) : pretty z <> "".
Proof. intros H. pose proof (parseInt_pretty z) as P. rewrite H in P. discriminate. Qed.

Lemma storage_entry_after_op (o : op) (st : Session.t) :
  storage (run_op o st) !! USER_ID_STORAGE_KEY
  = option_map pretty (currentUserId (run_op o st)).
Proof.
  destruct o as [id|]; [destruct id as [n|]|]; simpl;
    [apply lookup_insert_eq | apply lookup_delete_eq | apply lookup_delete_eq].
Qed.

Lemma restore_after_op (o : op) (st : Session.t) :
  restore (storage (run_op o st)) = currentUserId (run_op o st).
Proof.
  unfold restore. rewrite (storage_entry_after_op o st).
  destruct (currentUserId (run_op o st)) as [n|]; simpl; [|reflexivity].
  destruct (String.eqb (pretty n) "") eqn:E.
  - apply String.eqb_eq in E. exfalso. exact (pretty_Z_nonempty n E).
  - rewrite parseInt_pretty. reflexivity.
Qed.

Lemma restore_after_ops (os : list op) (s : Session.t) :
  restore (storage s) = currentUserId s ->
  restore (storage (run_ops os s)) = currentUserId (run_ops os s).
Proof.
  revert s. induction os as [|o os IH]; intros s H; [exact H|].
  simpl. apply IH. apply restore_after_op.
Qed.

(** Reloading the page: after any non-empty sequence of
    [setCurrentUserId] / [clearUser] calls, a freshly mounted provider
    reads from [localStorage] exactly the user id the session had. *)
Theorem reload_restores_session (o : op) (os : list op) (st : Session.t) :
  currentUserId (mount (storage (run_ops (o :: os) st)))
  = currentUserId (run_ops (o :: os) st).
Proof.
  simpl. apply restore_after_ops. apply restore_after_op.
Qed.

(** Logging in and out through the header: with a non-zero id the header
    shows the Cart link, the id and Logout; after Logout the storage key
    is gone, the header shows Register / Login, a reload stays anonymous
    and the cart page redirects to registration without fetching. *)
Theorem header_login_logout (n : Z) (st : Session.t) (cs : CartPage.t)
    (r : settled (list CartItemDto)) :
  n <> 0 ->
  Header.nav (currentUserId (setCurrentUserId (Some n) st))
    = [Header.NavLink "/" "Products"; Header.NavLink "/cart" "Cart";
       Header.UserInfo n; Header.LogoutButton] /\
  storage (Header.logout st) !! USER_ID_STORAGE_KEY = None /\
  Header.nav (currentUserId (Header.logout st))
    = [Header.NavLink "/" "Products"; Header.NavLink "/register" "Register / Login"] /\
  currentUserId (mount (storage (Header.logout st))) = None /\
  CartPage.onEnter (currentUserId (Header.logout st)) cs r = (cs, [Navigate "/register"]).
Proof.
  intros Hn. apply Z.eqb_neq in Hn.
  split; [simpl; rewrite Hn; reflexivity|].
  split; [apply lookup_delete_eq|].
  split; [reflexivity|].
  split; [|reflexivity].
  simpl. unfold restore. simpl. rewrite lookup_delete_eq. reflexivity.
Qed.

(** Witness for [header_login_logout], with user 123. *)
Lemma header_login_logout_witness :
  Header.nav (currentUserId (setCurrentUserId (Some 123) Obs.register_session))
  = [Header.NavLink "/" "Products"; Header.NavLink "/cart" "Cart";
     Header.UserInfo 123; Header.LogoutButton].
Proof.
  exact (proj1 (header_login_logout 123 Obs.register_session CartPage.init (Fulfilled [])
                  ltac:(discriminate))).
Defined.

End SessionMountFacts.

(* ------------------------------------------------------------------ *)
(** ** Registration form *)
(* ------------------------------------------------------------------ *)

Module RegisterFacts.

Import Register Lang Obs.

Lemma skip_ws_blank s : blank s = true -> Str.skip_ws s = [].
Proof.
  induction s as [|c s IH]; simpl; [reflexivity|].
  intros H. apply andb_true_iff in H as [Hc Hs]. rewrite Hc. exact (IH Hs).
Qed.

Lemma trim_blank s : blank s = true -> Str.trim s = [].
Proof. intros H. unfold Str.trim. rewrite (skip_ws_blank s H). reflexivity. Qed.

Lemma drop_trailing_no_ws s : Str.no_ws s = true -> Str.drop_trailing_ws s = s.
Proof.
  induction s as [|c s IH]; simpl; [reflexivity|].
  intros H. apply andb_true_iff in H as [Hc Hs]. apply negb_true_iff in Hc.
  rewrite (IH Hs). destruct s; [rewrite Hc|]; reflexivity.
Qed.

Lemma trim_no_ws s : Str.no_ws s = true -> Str.trim s = s.
Proof.
  intros H. unfold Str.trim. destruct s as [|c s']; [reflexivity|].
  simpl in H. apply andb_true_iff in H as [Hc Hs]. apply negb_true_iff in Hc.
  simpl. rewrite Hc. apply drop_trailing_no_ws. simpl. rewrite Hc, Hs. reflexivity.
Qed.

Lemma no_ws_app x y : Str.no_ws (x ++ y)%list = Str.no_ws x && Str.no_ws y.
Proof. induction x as [|c x IH]; simpl; [reflexivity|]. rewrite IH. apply andb_assoc. Qed.

Lemma count_app a x y :
  Str.count_char a (x ++ y)%list = (Str.count_char a x + Str.count_char a y)%nat.
Proof. induction x as [|c x IH]; simpl; [reflexivity|]. rewrite IH. lia. Qed.

Lemma split_at_app x y :
  Str.count_char 64 x = 0%nat -> Str.split_at 64 (x ++ 64 :: y)%list = (x, y).
Proof.
  induction x as [|c x IH]; simpl; [reflexivity|].
  destruct (Z.eqb c 64); [discriminate|]. simpl. intros H. rewrite (IH H). reflexivity.
Qed.

Lemma split_at_spec s :
  (1 <= Str.count_char 64 s)%nat ->
  s = (fst (Str.split_at 64 s) ++ 64 :: snd (Str.split_at 64 s))%list /\
  Str.count_char 64 (fst (Str.split_at 64 s)) = 0%nat.
Proof.
  induction s as [|c s IH]; simpl; [lia|].
  destruct (Z.eqb c 64) eqn:E.
  - apply Z.eqb_eq in E. subst. intros _. split; reflexivity.
  - intros H. destruct IH as [H1 H2]; [lia|].
    destruct (Str.split_at 64 s) as [l r]. simpl in *. rewrite E.
    split; [rewrite H1 at 1; reflexivity | simpl; lia].
Qed.

Lemma has_inner_dot_app x c : c <> [] -> Str.has_inner_dot (x ++ 46 :: c)%list = true.
Proof.
  intros Hc. induction x as [|d x IH]; simpl.
  - destruct c; [congruence|]. reflexivity.
  - rewrite IH. apply orb_true_r.
Qed.

Lemma has_inner_dot_spec s :
  Str.has_inner_dot s = true -> exists x c, s = (x ++ 46 :: c)%list /\ c <> [].
Proof.
  induction s as [|d s IH]; simpl; [discriminate|].
  intros H. apply orb_true_iff in H as [H|H].
  - apply andb_true_iff in H as [H1 H2]. apply Z.eqb_eq in H1. subst.
    exists [], s. split; [reflexivity|]. destruct s; [discriminate | congruence].
  - destruct (IH H) as (x & c & -> & Hc). exists (d :: x), c. split; [reflexivity | exact Hc].
Qed.

(** The email check is exactly the regex [/^[^\s@]+@[^\s@]+\.[^\s@]+$/]:
    [email_valid s] holds iff [s] is [a@b.c] with [a], [b], [c] non-empty
    and free of white space and ["@"]. *)
Theorem email_valid_matches_regex (s : Str.ustring) :
  Str.email_valid s = true <-> email_lang s.
Proof.
  split.
  - unfold Str.email_valid. intros H.
    apply andb_true_iff in H as [H Hd]. apply andb_true_iff in H as [Hws Hcnt].
    apply Nat.eqb_eq in Hcnt.
    destruct (split_at_spec s ltac:(lia)) as [Hs Hl].
    destruct (Str.split_at 64 s) as [l r] eqn:Hsplit. simpl in Hs, Hl.
    apply andb_true_iff in Hd as [Hne Hdom]. apply negb_true_iff in Hne.
    destruct r as [|d rest]; [discriminate|].
    destruct (has_inner_dot_spec rest Hdom) as (x & c & -> & Hc).
    exists l, (d :: x), c.
    assert (Hs' : s = (l ++ [64] ++ (d :: x) ++ [46] ++ c)%list) by exact Hs.
    rewrite Hs' in Hws, Hcnt.
    rewrite !no_ws_app in Hws. rewrite !count_app in Hcnt. simpl in Hws, Hcnt.
    repeat match goal with H : _ && _ = true |- _ => apply andb_true_iff in H as [? ?] end.
    split; [exact Hs'|]. unfold part.
    split; [split; [destruct l; [discriminate | congruence] | split; assumption]|].
    split; [split; [discriminate | split]|].
    + simpl. apply andb_true_iff. auto.
    + simpl. destruct (Z.eqb d 64); lia.
    + split; [exact Hc | split; [assumption | destruct (Z.eqb d 64); lia]].
  - intros (a & b & c & -> & (Ha & Hwa & Hca) & (Hb & Hwb & Hcb) & (Hc & Hwc & Hcc)).
    unfold Str.email_valid.
    rewrite !no_ws_app, !count_app, Hwa, Hwb, Hwc, Hca, Hcb, Hcc. simpl.
    rewrite (split_at_app a _ Hca). simpl.
    destruct a; [congruence|]. simpl.
    destruct b as [|b0 b']; [congruence|]. simpl.
    apply has_inner_dot_app. exact Hc.
Qed.

Lemma blank_skip_ws s : blank (Str.skip_ws s) = blank s.
Proof.
  induction s as [|c s IH]; simpl; [reflexivity|].
  destruct (Str.is_ws c) eqn:E; simpl; [exact IH | rewrite E; reflexivity].
Qed.

Lemma drop_trailing_empty s : Str.drop_trailing_ws s = [] -> blank s = true.
Proof.
  induction s as [|c s IH]; simpl; [reflexivity|].
  destruct (Str.drop_trailing_ws s) eqn:E.
  - destruct (Str.is_ws c); [|discriminate]. intros _. simpl. exact (IH eq_refl).
  - discriminate.
Qed.

Lemma trim_empty_blank s : Str.is_empty (Str.trim s) = blank s.
Proof.
  destruct (blank s) eqn:B.
  - rewrite (trim_blank s B). reflexivity.
  - destruct (Str.trim s) eqn:E; [|reflexivity].
    unfold Str.trim in E. apply drop_trailing_empty in E.
    rewrite blank_skip_ws in E. congruence.
Qed.

Lemma email_valid_no_ws s : Str.email_valid s = true -> Str.no_ws s = true.
Proof.
  unfold Str.email_valid. intros H.
  apply andb_true_iff in H as [H _]. apply andb_true_iff in H as [H _]. exact H.
Qed.

Lemma input_valid_parts st :
  register_input_valid st = true ->
  Str.is_empty (Str.trim (username st)) = false /\
  Str.is_empty (Str.trim (email st)) = false /\
  Str.email_valid (email st) = true.
Proof.
  unfold register_input_valid. intros Hv.
  apply andb_true_iff in Hv as [Hv He]. apply andb_true_iff in Hv as [Hu Hm].
  apply negb_true_iff in Hu, Hm. auto.
Qed.

(** [handleSubmit] checks the username, then the email's presence, then its
    shape, and stops at the first failure with that error and no request:
    a blank username (white space in the sense of [trim], the no-break
    space included) wins over everything, a blank email over a malformed
    one. *)
Theorem register_validation_order (st : Register.t) (res : settled UserDto) :
  (blank (username st) = true ->
     handleSubmit st res = (set_error (Some "Username is required") st, [])) /\
  (blank (username st) = false -> blank (email st) = true ->
     handleSubmit st res = (set_error (Some "Email is required") st, [])) /\
  (blank (username st) = false -> blank (email st) = false ->
   Str.email_valid (email st) = false ->
     handleSubmit st res
     = (set_error (Some "Please enter a valid email address") st, [])).
Proof.
  unfold handleSubmit. simpl. rewrite !trim_empty_blank.
  split; [|split].
  - intros Hu. rewrite Hu. reflexivity.
  - intros Hu He. rewrite Hu, He. reflexivity.
  - intros Hu He Hv. rewrite Hu, He, Hv. reflexivity.
Qed.

(** Witness: a username of one no-break space (U+00A0), an email of
    spaces, and ["bob@mail"] each stop at their own check. *)
Lemma register_validation_order_witness :
  handleSubmit {| username := [160]; email := []; error := Some "old";
                  loading := false |} (Fulfilled {| user_id := 1; Dto.username := "x";
                                                   Dto.email := "y" |})
  = ({| username := [160]; email := []; error := Some "Username is required";
        loading := false |}, []) /\
  handleSubmit {| username := Str.of_string "bob"; email := Str.of_string "   ";
                  error := None; loading := false |} (Failed (NonError JNull))
  = ({| username := Str.of_string "bob"; email := Str.of_string "   ";
        error := Some "Email is required"; loading := false |}, []) /\
  handleSubmit {| username := Str.of_string "bob"; email := Str.of_string "bob@mail";
                  error := None; loading := false |} (Failed (NonError JNull))
  = ({| username := Str.of_string "bob"; email := Str.of_string "bob@mail";
        error := Some "Please enter a valid email address"; loading := false |}, []).
Proof.
  split; [|split]; match goal with |- handleSubmit ?s ?r = _ =>
    pose proof (register_validation_order s r) as (H1 & H2 & H3) end.
  - apply H1. reflexivity.
  - apply H2; reflexivity.
  - apply H3; vm_compute; reflexivity.
Defined.

(** Whatever the form holds and however the request settles, a submit that
    does anything first sends [createUser] with the trimmed username, which
    is not empty, and the email exactly as typed, which has no white space
    at all: the regex runs on the untrimmed email, so [email.trim()] never
    changes what is sent. *)
Theorem register_request_shape (st : Register.t) (res : settled UserDto) :
  snd (handleSubmit st res) <> [] ->
  exists rest,
    snd (handleSubmit st res)
    = Issue (CallCreateUser (Str.trim (username st)) (email st)) :: rest /\
    Str.trim (username st) <> [] /\
    Str.email_valid (email st) = true /\
    Str.no_ws (email st) = true.
Proof.
  unfold handleSubmit. simpl.
  destruct (Str.is_empty (Str.trim (username st))) eqn:Hu; [simpl; congruence|].
  destruct (Str.is_empty (Str.trim (email st))) eqn:He; [simpl; congruence|].
  destruct (Str.email_valid (email st)) eqn:Hv; [|simpl; congruence].
  intros _. pose proof (email_valid_no_ws _ Hv) as Hw.
  rewrite (trim_no_ws _ Hw).
  assert (Hu' : Str.trim (username st) <> []) by (intros E; rewrite E in Hu; discriminate).
  destruct res; eexists; (split; [reflexivity | auto]).
Qed.

(** Witness: a successful registration of ["alice"], typed with a leading
    no-break space that [trim] removes. *)
Lemma register_request_shape_witness :
  snd (handleSubmit {| username := 160 :: Str.of_string "alice";
                       email := Str.of_string "alice@example.com";
                       error := None; loading := false |}
         (Fulfilled {| user_id := 7; Dto.username := "alice";
                       Dto.email := "alice@example.com" |})) <> [] /\
  exists rest,
    snd (handleSubmit {| username := 160 :: Str.of_string "alice";
                         email := Str.of_string "alice@example.com";
                         error := None; loading := false |}
           (Fulfilled {| user_id := 7; Dto.username := "alice";
                         Dto.email := "alice@example.com" |}))
    = Issue (CallCreateUser (Str.of_string "alice") (Str.of_string "alice@example.com"))
      :: rest.
Proof.
  match goal with |- snd (handleSubmit ?s ?r) <> [] /\ _ =>
    assert (H : snd (handleSubmit s r) <> []) by (vm_compute; discriminate);
    split; [exact H|];
    destruct (register_request_shape s r H) as (rest & E & _)
  end.
  exists rest. rewrite E. reflexivity.
Defined.

(** A valid form whose [createUser] resolves to [user] clears the error,
    ends loading, and has exactly three effects in order: the request, the
    context's [setCurrentUserId(user.id)] and [navigate("/")]; and that
    [setCurrentUserId] leaves, on any session, a stored id that a reload
    restores to [user.id]. *)
Theorem register_success (st : Register.t) (user : UserDto) (ss : Session.t) :
  register_input_valid st = true ->
  handleSubmit st (Fulfilled user)
  = ({| username := username st; email := email st; error := None;
        loading := false |},
     [Issue (CallCreateUser (Str.trim (username st)) (email st));
      SetUser (user_id user); Navigate "/"]) /\
  SessionMount.restore (Session.storage (Session.setCurrentUserId (Some (user_id user)) ss))
  = Some (user_id user).
Proof.
  intros Hv. destruct (input_valid_parts st Hv) as (Hu & He & Hm).
  split.
  - unfold handleSubmit. simpl. rewrite Hu, He, Hm. simpl.
    rewrite (trim_no_ws _ (email_valid_no_ws _ Hm)). reflexivity.
  - exact (SessionMountFacts.restore_after_op (Session.SetId (Some (user_id user))) ss).
Qed.

(** Witness: ["alice"] registered as user 7 from a fresh session. *)
Lemma register_success_witness :
  register_input_valid register_filled = true /\
  SessionMount.restore (Session.storage
    (Session.setCurrentUserId (Some 7) register_session)) = Some 7.
Proof.
  assert (H : register_input_valid register_filled = true) by (vm_compute; reflexivity).
  split; [exact H|].
  exact (proj2 (register_success register_filled
                  {| user_id := 7; Dto.username := "alice";
                     Dto.email := "alice@example.com" |} register_session H)).
Defined.

(** A valid form whose [createUser] rejects sends only the request: no
    session change and no navigation; the caught message (or the fallback)
    is shown and loading ends. *)
Theorem register_failure (st : Register.t) (err : rejection) :
  register_input_valid st = true ->
  handleSubmit st (Failed err)
  = ({| username := username st; email := email st;
        error := Some (err_message err "Failed to create user");
        loading := false |},
     [Issue (CallCreateUser (Str.trim (username st)) (email st))]).
Proof.
  intros Hv. destruct (input_valid_parts st Hv) as (Hu & He & Hm).
  unfold handleSubmit. simpl. rewrite Hu, He, Hm. simpl.
  rewrite (trim_no_ws _ (email_valid_no_ws _ Hm)). reflexivity.
Qed.

(** Witness: ["alice"] rejected by a server error. *)
Lemma register_failure_witness :
  register_input_valid register_filled = true /\
  handleSubmit register_filled (Failed (ErrorInstance "HTTP 500"))
  = ({| username := Str.of_string "alice"; email := Str.of_string "alice@example.com";
        error := Some "HTTP 500"; loading := false |},
     [Issue (CallCreateUser (Str.of_string "alice") (Str.of_string "alice@example.com"))]).
Proof.
  assert (H : register_input_valid register_filled = true) by (vm_compute; reflexivity).
  split; [exact H|].
  rewrite (register_failure register_filled (ErrorInstance "HTTP 500") H).
  vm_compute. reflexivity.
Defined.

End RegisterFacts.

(* ------------------------------------------------------------------ *)
(** ** The cart page's handlers *)
(* ------------------------------------------------------------------ *)

Module CartFacts.

Import CartPage CartRun Obs.

(** Without a truthy user id ([null] or [0]) the cart page renders
    nothing, and none of its handlers, alone or in any sequence, changes
    its state or issues a request. *)
Theorem cart_handlers_need_user (uid : option Z) (st : CartPage.t) (acts : list action) :
  uid_truthy uid = false ->
  render uid st = ViewNothing /\
  (forall res, loadCart uid st res = (st, [])) /\
  (forall pid res reload, handleRemove uid pid st res reload = (st, [])) /\
  (forall res, handleCheckout uid st res = (st, [])) /\
  run uid st acts = (st, []).
Proof.
  intros Hu.
  assert (Hstep : forall s a, step uid s a = (s, [])).
  { intros s a. destruct uid as [n|]; simpl in Hu.
    - apply negb_false_iff, Z.eqb_eq in Hu. subst.
      destruct a; reflexivity.
    - destruct a; reflexivity. }
  split; [unfold render; rewrite Hu; reflexivity|].
  split; [intros res; exact (Hstep st (Load res))|].
  split; [intros pid res reload; exact (Hstep st (Remove pid res reload))|].
  split; [intros res; exact (Hstep st (Checkout res))|].
  revert st. induction acts as [|a acts IH]; intros st; [reflexivity|].
  simpl. rewrite Hstep, IH. reflexivity.
Qed.

(** Witness: the anonymous session and user id [0] on the loaded cart. *)
Lemma cart_handlers_need_user_witness :
  uid_truthy (Some 0) = false /\
  run (Some 0) cart_loaded [Load (Fulfilled []); Checkout (Failed (NonError JNull))]
  = (cart_loaded, []).
Proof.
  split; [reflexivity|].
  exact (proj2 (proj2 (proj2 (proj2 (cart_handlers_need_user (Some 0) cart_loaded
           [Load (Fulfilled []); Checkout (Failed (NonError JNull))] eq_refl))))).
Defined.

(** [handleRemove(productId)] removes nothing locally: after a successful
    removal the rows are whatever the following [getCart] returns; when
    that reload fails its own error ("Failed to load cart" or the
    message) is shown, never "Failed to remove item", and the old rows
    stay; only a failed removal shows "Failed to remove item", without
    a reload. *)
Theorem remove_then_reload (n pid : Z) (st : CartPage.t) (data : list CartItemDto)
    (err : rejection) :
  n <> 0 ->
  handleRemove (Some n) pid st (Fulfilled tt) (Fulfilled data)
  = ({| cartItems := data; loading := false; error := None;
        checkoutResult := checkoutResult st |},
     [Issue (CallRemoveFromCart n pid); Issue (CallGetCart n)]) /\
  handleRemove (Some n) pid st (Fulfilled tt) (Failed err)
  = ({| cartItems := cartItems st; loading := false;
        error := Some (err_message err "Failed to load cart");
        checkoutResult := checkoutResult st |},
     [Issue (CallRemoveFromCart n pid); Issue (CallGetCart n)]) /\
  (forall reload, handleRemove (Some n) pid st (Failed err) reload
   = ({| cartItems := cartItems st; loading := loading st;
         error := Some (err_message err "Failed to remove item");
         checkoutResult := checkoutResult st |},
      [Issue (CallRemoveFromCart n pid)])).
Proof.
  intros Hn. apply Z.eqb_neq in Hn. unfold handleRemove, loadCart. rewrite Hn.
  split; [|split]; [reflexivity | reflexivity | intros; reflexivity].
Qed.

(** Witness: user 1 removes the laptop and the server's cart comes back empty. *)
Lemma remove_then_reload_witness :
  handleRemove (Some 1) 1 cart_loaded (Fulfilled tt) (Fulfilled [])
  = ({| cartItems := []; loading := false; error := None; checkoutResult := None |},
     [Issue (CallRemoveFromCart 1 1); Issue (CallGetCart 1)]).
Proof. exact (proj1 (remove_then_reload 1 1 cart_loaded [] (NonError JNull) ltac:(lia))). Defined.

(** Checking out an empty cart sends no request and shows "Your cart is
    empty" as the banner over the empty-cart notice. *)
Theorem checkout_empty_cart (n : Z) (st : CartPage.t) (res : settled CheckoutResultDto) :
  n <> 0 -> cartItems st = [] ->
  handleCheckout (Some n) st res = (set_error (Some "Your cart is empty") st, []) /\
  (loading st = false -> checkoutResult st = None ->
   render (Some n) (fst (handleCheckout (Some n) st res))
   = ViewEmpty (Some "Your cart is empty")).
Proof.
  intros Hn He. assert (Hn' := Hn). apply Z.eqb_neq in Hn.
  assert (H : handleCheckout (Some n) st res = (set_error (Some "Your cart is empty") st, [])).
  { unfold handleCheckout. rewrite Hn, He. reflexivity. }
  split; [exact H|]. intros Hl Hc. rewrite H. unfold render. simpl.
  rewrite Hn, Hl, Hc, He. reflexivity.
Qed.

(** Witness: user 1 on an emptied cart. *)
Lemma checkout_empty_cart_witness :
  render (Some 1) (fst (handleCheckout (Some 1) (CartPage.set_loading false CartPage.init)
                          (Fulfilled out_of_stock_result)))
  = ViewEmpty (Some "Your cart is empty").
Proof.
  apply (proj2 (checkout_empty_cart 1 (CartPage.set_loading false CartPage.init)
                  (Fulfilled out_of_stock_result) ltac:(lia) eq_refl)); reflexivity.
Defined.

Lemma step_keeps_result uid st a r0 :
  checkoutResult st = Some r0 ->
  exists r, checkoutResult (fst (step uid st a)) = Some r.
Proof.
  intros H. destruct uid as [n|]; [|destruct a; exists r0; exact H].
  destruct (Z.eqb n 0) eqn:Hn.
  - destruct a; simpl; unfold loadCart, handleRemove, handleCheckout; rewrite Hn;
      exists r0; exact H.
  - destruct a as [res|pid res reload|res]; simpl.
    + unfold loadCart. rewrite Hn. destruct res; exists r0; exact H.
    + unfold handleRemove, loadCart. rewrite Hn.
      destruct res; [destruct reload|]; exists r0; exact H.
    + unfold handleCheckout. rewrite Hn. destruct (cartItems st); [exists r0; exact H|].
      destruct res as [result|]; [|exists r0; exact H].
      exists result. destruct (success result); reflexivity.
Qed.

(** Once a checkout result is on the page it stays: no handler, in any
    sequence, resets it, so the page never shows the cart rows or the
    empty-cart view again while it stays mounted. *)
Theorem checkout_result_sticks (uid : option Z) (st : CartPage.t) (r0 : CheckoutResultDto)
    (acts : list action) :
  checkoutResult st = Some r0 ->
  exists r, checkoutResult (fst (run uid st acts)) = Some r /\
    forall banner items,
      render uid (fst (run uid st acts)) <> ViewEmpty banner /\
      render uid (fst (run uid st acts)) <> ViewItems banner items.
Proof.
  intros H.
  assert (Hrun : exists r, checkoutResult (fst (run uid st acts)) = Some r).
  { revert st r0 H. induction acts as [|a acts IH]; intros st r0 H; [exists r0; exact H|].
    simpl. destruct (step_keeps_result uid st a r0 H) as [r1 H1].
    destruct (step uid st a) as [st1 e1]. simpl in H1.
    specialize (IH st1 r1 H1). destruct (run uid st1 acts) as [st2 e2]. exact IH. }
  destruct Hrun as [r Hr]. exists r. split; [exact Hr|].
  intros banner items. unfold render. rewrite Hr.
  destruct (negb (uid_truthy uid)); [split; discriminate|].
  destruct (loading (fst (run uid st acts))); split; discriminate.
Qed.

(** Witness: after the out-of-stock result, user 1 reloads the cart and
    checks out again. *)
Lemma checkout_result_sticks_witness :
  exists r, checkoutResult (fst (run (Some 1) (set_checkoutResult (Some out_of_stock_result) cart_loaded)
                                   [Load (Fulfilled [laptop_line]); Checkout (Fulfilled out_of_stock_result)]))
            = Some r.
Proof.
  destruct (checkout_result_sticks (Some 1) (set_checkoutResult (Some out_of_stock_result) cart_loaded)
              out_of_stock_result
              [Load (Fulfilled [laptop_line]); Checkout (Fulfilled out_of_stock_result)] eq_refl)
    as [r [Hr _]].
  exists r. exact Hr.
Defined.

End CartFacts.

(* ------------------------------------------------------------------ *)
(** ** Loading the pages, and the product card *)
(* ------------------------------------------------------------------ *)

Module PageLoadFacts.

Import Obs.

(** [loadProducts()] (on mount and from Retry) fetches the list once and
    ends with loading off. On success the grid shows exactly the fetched
    products, whatever error was shown before; on a failure with a
    non-empty message the error view with that message is shown; a
    failure whose message is empty is falsy, so the page falls back to
    the grid of the products held before. *)
Theorem home_load_outcomes (st : Home.t) (data : list ProductDto) (err : rejection) :
  snd (Home.loadProducts st (Fulfilled data)) = [Issue CallGetProducts] /\
  Home.render (fst (Home.loadProducts st (Fulfilled data)))
  = Home.ViewProducts (if str_truthy (Home.message st) then Home.message st else None) data /\
  (err_message err "Failed to load products" <> "" ->
   Home.render (fst (Home.loadProducts st (Failed err)))
   = Home.ViewError (err_message err "Failed to load products")) /\
  Home.render (fst (Home.loadProducts st (Failed (ErrorInstance ""))))
  = Home.ViewProducts (if str_truthy (Home.message st) then Home.message st else None)
                      (Home.products st).
Proof.
  split; [reflexivity|]. split; [reflexivity|]. split; [|reflexivity].
  intros Hm. unfold Home.render. simpl. unfold str_truthy.
  apply String.eqb_neq in Hm. rewrite Hm. reflexivity.
Qed.

(** Witness: Retry after "Failed to load products" on the home page. *)
Lemma home_load_outcomes_witness :
  Home.render (fst (Home.loadProducts (Home.set_error (Some "x") home_loaded)
                      (Failed (NonError JNull))))
  = Home.ViewError "Failed to load products".
Proof.
  apply (proj1 (proj2 (proj2 (home_load_outcomes (Home.set_error (Some "x") home_loaded)
                                 [] (NonError JNull))))).
  discriminate.
Defined.

(** [loadProduct(productId)] fetches that product once and ends with
    loading off. On success the product is shown with the controls of
    the session; a failure with a non-empty message is shown as the error
    view; a failure with an empty message on a page with no product yet
    reads "Product not found". *)
Theorem detail_load_outcomes (pid : Z) (uid : option Z) (st : ProductDetail.t)
    (p : ProductDto) (err : rejection) :
  snd (ProductDetailLoad.loadProduct pid st (Fulfilled p)) = [Issue (CallGetProduct pid)] /\
  ProductDetail.render uid (fst (ProductDetailLoad.loadProduct pid st (Fulfilled p)))
  = ProductDetail.ViewProduct p
      (if str_truthy (ProductDetail.message st) then ProductDetail.message st else None)
      (if uid_truthy uid
       then ProductDetail.AddControls (ProductDetail.quantity st) (Z.leb (stockQuantity p) 0)
       else ProductDetail.LoginPrompt) /\
  (err_message err "Failed to load product" <> "" ->
   ProductDetail.render uid (fst (ProductDetailLoad.loadProduct pid st (Failed err)))
   = ProductDetail.ViewError (err_message err "Failed to load product")) /\
  (ProductDetail.product st = None ->
   ProductDetail.render uid
     (fst (ProductDetailLoad.loadProduct pid st (Failed (ErrorInstance ""))))
   = ProductDetail.ViewError "Product not found").
Proof.
  split; [reflexivity|]. split; [reflexivity|]. split.
  - intros Hm. unfold ProductDetail.render. simpl. unfold str_truthy.
    apply String.eqb_neq in Hm. rewrite Hm.
    destruct (ProductDetail.product st); reflexivity.
  - intros Hp. unfold ProductDetail.render. simpl. rewrite Hp. reflexivity.
Qed.

(** Witness: product 1 opened by user 1, and a page whose fetch fails. *)
Lemma detail_load_outcomes_witness :
  ProductDetail.render (Some 1)
    (fst (ProductDetailLoad.loadProduct 1
            (ProductDetailLoad.set_product None (detail_loaded 1)) (Failed (NonError JNull))))
  = ProductDetail.ViewError "Failed to load product" /\
  ProductDetail.render (Some 1)
    (fst (ProductDetailLoad.loadProduct 1
            (ProductDetailLoad.set_product None (detail_loaded 1)) (Failed (ErrorInstance ""))))
  = ProductDetail.ViewError "Product not found".
Proof.
  pose proof (detail_load_outcomes 1 (Some 1)
                (ProductDetailLoad.set_product None (detail_loaded 1)) laptop (NonError JNull))
    as (_ & _ & H3 & H4).
  split; [apply H3; discriminate | apply H4; reflexivity].
Defined.

(** Anonymous (a falsy user id) add-to-cart requests nothing anywhere: the
    home page's handler only asks to register, the detail page's also
    schedules the move to [/register], and the card neither shows a
    button nor calls the home page's handler at all, so on the home page
    that request to register is never shown through a card. *)
Theorem anonymous_add_to_cart (uid : option Z) (pid q : Z) (p : ProductDto)
    (hst : Home.t) (dst : ProductDetail.t) (res : settled unit) :
  uid_truthy uid = false ->
  Home.handleAddToCart uid pid q hst res
  = (Home.set_message (Some "Please register or login to add items to cart") hst, []) /\
  ProductDetail.handleAddToCart uid dst res
  = (ProductDetail.set_message (Some "Please register or login to add items to cart") dst,
     [SetTimeout (NavigateTo "/register") 2000]) /\
  ProductCard.action_of uid p = ProductCard.RegisterLink /\
  ProductCard.click_on_home uid p hst res = (hst, []).
Proof.
  intros Hu.
  split; [|split; [|split]].
  - destruct uid as [n|]; [|reflexivity]. simpl in Hu.
    apply negb_false_iff in Hu. unfold Home.handleAddToCart. rewrite Hu. reflexivity.
  - unfold ProductDetail.handleAddToCart. rewrite Hu. reflexivity.
  - unfold ProductCard.action_of. rewrite Hu. reflexivity.
  - unfold ProductCard.click_on_home, ProductCard.handleAddToCart. rewrite Hu. reflexivity.
Qed.

(** Witness: the anonymous session on the home and detail pages. *)
Lemma anonymous_add_to_cart_witness :
  ProductCard.click_on_home None laptop home_loaded (Fulfilled tt) = (home_loaded, []).
Proof.
  exact (proj2 (proj2 (proj2 (anonymous_add_to_cart None 1 1 laptop home_loaded
           (detail_loaded 1) (Fulfilled tt) eq_refl)))).
Defined.

(** For a logged-in user a card click adds exactly one unit of the card's
    product through the home page's handler: on success the request, the
    "Item added to cart!" message and its clearing after 3 s; on failure
    the request and the error. The button is disabled and reads "Out of
    Stock" exactly when the stock is at most 0. *)
Theorem card_click_adds_one (n : Z) (p : ProductDto) (st : Home.t) (err : rejection) :
  n <> 0 ->
  ProductCard.action_of (Some n) p
  = ProductCard.AddButton (Z.leb (stockQuantity p) 0)
      (if Z.leb (stockQuantity p) 0 then "Out of Stock" else "Add to Cart") /\
  ProductCard.click_on_home (Some n) p st (Fulfilled tt)
  = (Home.set_message (Some "Item added to cart!") (Home.set_message None st),
     [Issue (CallAddToCart n (product_id p) 1); SetTimeout ClearMessage 3000]) /\
  ProductCard.click_on_home (Some n) p st (Failed err)
  = (Home.set_error (Some (err_message err "Failed to add to cart")) (Home.set_message None st),
     [Issue (CallAddToCart n (product_id p) 1)]).
Proof.
  intros Hn. apply Z.eqb_neq in Hn.
  unfold ProductCard.action_of, ProductCard.click_on_home, ProductCard.handleAddToCart,
    Home.handleAddToCart, uid_truthy.
  rewrite Hn. simpl. split; [|split]; reflexivity.
Qed.

(** Witness: user 1 clicks the laptop card. *)
Lemma card_click_adds_one_witness :
  ProductCard.action_of (Some 1) laptop = ProductCard.AddButton false "Add to Cart" /\
  snd (ProductCard.click_on_home (Some 1) laptop home_loaded (Fulfilled tt))
  = [Issue (CallAddToCart 1 1 1); SetTimeout ClearMessage 3000].
Proof.
  pose proof (card_click_adds_one 1 laptop home_loaded (NonError JNull) ltac:(lia))
    as (H1 & H2 & _).
  split; [exact H1 | rewrite H2; reflexivity].
Defined.

Lemma substring_prefix (n : nat) (s : string) :
  (n <= String.length s)%nat ->
  String.length (String.substring 0 n s) = n /\
  exists rest, s = String.substring 0 n s ++ rest.
Proof.
  revert s. induction n as [|n IH]; intros s H.
  - destruct s; (split; [reflexivity | eexists; reflexivity]).
  - destruct s as [|c s]; simpl in H; [lia|].
    destruct (IH s ltac:(lia)) as [Hl [rest Hr]].
    simpl. split; [rewrite Hl; reflexivity|]. exists rest. rewrite Hr at 1. reflexivity.
Qed.

Lemma string_length_app x y : String.length (x ++ y) = (String.length x + String.length y)%nat.
Proof. induction x as [|c x IH]; simpl; [reflexivity | rewrite IH; reflexivity]. Qed.

(** A card's description shows a non-empty text unchanged up to 100
    characters; a longer one becomes its first 100 characters followed by
    ["..."], so what is shown never exceeds 103 characters and always
    starts with a prefix of the text. (Lengths count the characters of
    the model's 8-bit strings.) *)
Theorem shown_description_cut (s : string) :
  s <> "" ->
  exists t, ProductCard.shown_description (Some s) = Some t /\
    (String.length t <= 103)%nat /\
    ((String.length s <= 100)%nat -> t = s) /\
    ((100 < String.length s)%nat ->
     exists rest, s = String.substring 0 100 s ++ rest /\
                  t = String.substring 0 100 s ++ "..." /\
                  String.length (String.substring 0 100 s) = 100%nat).
Proof.
  intros Hs. unfold ProductCard.shown_description.
  apply String.eqb_neq in Hs. rewrite Hs.
  destruct (Nat.ltb 100 (String.length s)) eqn:Hl.
  - apply Nat.ltb_lt in Hl.
    destruct (substring_prefix 100 s ltac:(lia)) as [Hlen [rest Hr]].
    eexists. split; [reflexivity|]. split.
    + rewrite string_length_app, Hlen. simpl. lia.
    + split; [intros; lia|]. intros _. exists rest. auto.
  - apply Nat.ltb_ge in Hl. exists s. split; [reflexivity|].
    split; [lia|]. split; [reflexivity | intros; lia].
Qed.

(** Witness: a one-word description is shown as it is. *)
Lemma shown_description_cut_witness :
  exists t, ProductCard.shown_description (Some "Fast") = Some t /\ t = "Fast".
Proof.
  destruct (shown_description_cut "Fast" ltac:(discriminate)) as (t & Ht & _ & Hs & _).
  exists t. split; [exact Ht | apply Hs; simpl; lia].
Defined.

End PageLoadFacts.
